(** * Fundamentals dashboard: metric extraction and scoring

    A shallow embedding of [fundamentals.py].  Python values are modelled as
    a small tagged union, exceptions as an error monad, dictionaries as
    [gmap string pyval], and binary64 numbers as Rocq's primitive floats. *)

From Stdlib Require Import ZArith QArith Lia.
From Stdlib Require Uint63.
From Stdlib Require Import PrimFloat SpecFloat FloatOps FloatAxioms.
From stdpp Require Import base option list strings pretty gmap.

Set Warnings "-inexact-float".
Local Open Scope string_scope.
Local Open Scope Z_scope.

(** ** Python values and exceptions *)

(** The values that flow through the profile and metrics dictionaries. *)
Inductive pyval : Type :=
  | PyNone
  | PyInt (z : Z)
  | PyFloat (f : float)
  | PyStr (s : string).

Inductive exn : Type :=
  | KeyError (key : string)
  | TypeError (msg : string)
  | ValueError (msg : string)
  | OverflowError (msg : string)
  | ZeroDivisionError (msg : string)
  | RuntimeError (msg : string).

Inductive result (A : Type) : Type :=
  | Ok (a : A)
  | Raise (e : exn).
Arguments Ok {A} a.
Arguments Raise {A} e.

#[export] Instance result_ret : MRet result := @Ok.
#[export] Instance result_bind : MBind result := fun A B f r =>
  match r with
  | Ok a => f a
  | Raise e => Raise e
  end.

Definition type_name (v : pyval) : string :=
  match v with
  | PyNone => "NoneType"
  | PyInt _ => "int"
  | PyFloat _ => "float"
  | PyStr _ => "str"
  end.

(** ** Exact numeric values

    Python compares an [int] with a [float] by their mathematical values, and
    two floats by IEEE order; both are the order of the extended rationals
    below, with NaN unordered. *)
Inductive xnum : Type :=
  | XNaN
  | XNegInf
  | XFin (q : Q)
  | XPosInf.

Definition SF2X (x : spec_float) : xnum :=
  match x with
  | S754_zero _ => XFin 0
  | S754_infinity false => XPosInf
  | S754_infinity true => XNegInf
  | S754_nan => XNaN
  | S754_finite s m e =>
      let n := if s then Z.neg m else Z.pos m in
      match e with
      | Z.neg p => XFin (Qmake n (2 ^ p)%positive)
      | _ => XFin (inject_Z (n * 2 ^ e))
      end
  end.

Definition Qltb (p q : Q) : bool :=
  match (p ?= q)%Q with
  | Lt => true
  | _ => false
  end.

Definition xlt (x y : xnum) : bool :=
  match x, y with
  | XNaN, _ | _, XNaN => false
  | XNegInf, XNegInf => false
  | XNegInf, _ => true
  | XFin p, XFin q => Qltb p q
  | XFin _, XPosInf => true
  | _, _ => false
  end.

Definition num_value (v : pyval) : option xnum :=
  match v with
  | PyInt z => Some (XFin (inject_Z z))
  | PyFloat f => Some (SF2X (Prim2SF f))
  | _ => None
  end.

Definition unorderable (op : string) (a b : pyval) : exn :=
  TypeError ("'" +:+ op +:+ "' not supported between instances of '"
             +:+ type_name a +:+ "' and '" +:+ type_name b +:+ "'").

(** [a < b] *)
Definition py_lt (a b : pyval) : result bool :=
  match num_value a, num_value b with
  | Some x, Some y => Ok (xlt x y)
  | _, _ =>
      match a, b with
      | PyStr s, PyStr t => Ok (String.ltb s t)
      | _, _ => Raise (unorderable "<" a b)
      end
  end.

(** [a > b] *)
Definition py_gt (a b : pyval) : result bool :=
  match num_value a, num_value b with
  | Some x, Some y => Ok (xlt y x)
  | _, _ =>
      match a, b with
      | PyStr s, PyStr t => Ok (String.ltb t s)
      | _, _ => Raise (unorderable ">" a b)
      end
  end.

(** [p and q]: the right operand is only looked at when the left one holds. *)
Definition py_and (p q : result bool) : result bool :=
  p ≫= λ b : bool, if b then q else Ok false.

(** [d[k]] *)
Definition getitem (d : gmap string pyval) (k : string) : result pyval :=
  match d !! k with
  | Some v => Ok v
  | None => Raise (KeyError k)
  end.

(** [d.get(k, dflt)] *)
Definition get (d : gmap string pyval) (k : string) (dflt : pyval) : pyval :=
  default dflt (d !! k).

(** Truth value of an object, as tested by [if v]. *)
Definition truthy (v : pyval) : bool :=
  match v with
  | PyNone => false
  | PyInt z => negb (z =? 0)
  | PyFloat f => negb (f =? 0)%float
  | PyStr s => negb (String.eqb s "")
  end.

(** Conversion of an [int] operand to binary64, rounding to nearest even. *)
Definition float_of_int (z : Z) : result float :=
  let f := SF2Prim (binary_normalize prec emax z 0 false) in
  if is_infinity f then Raise (OverflowError "int too large to convert to float")
  else Ok f.

(** [a / d] for a float divisor [d]. *)
Definition py_truediv (a : pyval) (d : float) : result pyval :=
  let divide (x : float) : result pyval :=
    if (d =? 0)%float then Raise (ZeroDivisionError "float division by zero")
    else Ok (PyFloat (x / d)%float) in
  match a with
  | PyInt z => float_of_int z ≫= divide
  | PyFloat x => divide x
  | _ => Raise (TypeError ("unsupported operand type(s) for /: '"
                           +:+ type_name a +:+ "' and 'float'"))
  end.

(** ** Metric extraction *)

Definition calculate_metrics {Hist Sheet : Type} (info : gmap string pyval)
    (hist : Hist) (balance_sheet income_stmt cash_flow : Sheet)
    : result (gmap string pyval) :=
  let metrics : gmap string pyval := ∅ in
  (* Price metrics *)
  let metrics := <["Current Price" := get info "currentPrice" (PyInt 0)]> metrics in
  let metrics := <["52 Week High" := get info "fiftyTwoWeekHigh" (PyInt 0)]> metrics in
  let metrics := <["52 Week Low" := get info "fiftyTwoWeekLow" (PyInt 0)]> metrics in
  cap ← py_truediv (get info "marketCap" (PyInt 0)) 1e9;
  let metrics := <["Market Cap (B)" := cap]> metrics in
  (* Valuation metrics *)
  let metrics := <["P/E Ratio" := get info "trailingPE" (PyInt 0)]> metrics in
  let metrics := <["Forward P/E" := get info "forwardPE" (PyInt 0)]> metrics in
  let metrics := <["PEG Ratio" := get info "pegRatio" (PyInt 0)]> metrics in
  let metrics := <["Price/Book" := get info "priceToBook" (PyInt 0)]> metrics in
  let metrics :=
    <["Price/Sales" := get info "priceToSalesTrailing12Months" (PyInt 0)]> metrics in
  let metrics := <["EV/EBITDA" := get info "enterpriseToEbitda" (PyInt 0)]> metrics in
  (* Financial health metrics *)
  let metrics := <["Current Ratio" := get info "currentRatio" (PyInt 0)]> metrics in
  let metrics := <["Debt/Equity" := get info "debtToEquity" (PyInt 0)]> metrics in
  let metrics := <["Quick Ratio" := get info "quickRatio" (PyInt 0)]> metrics in
  (* Profitability metrics *)
  let metrics := <["Return on Equity" := get info "returnOnEquity" (PyInt 0)]> metrics in
  let metrics := <["Return on Assets" := get info "returnOnAssets" (PyInt 0)]> metrics in
  let metrics := <["Profit Margin" := get info "profitMargins" (PyInt 0)]> metrics in
  let metrics := <["Operating Margin" := get info "operatingMargins" (PyInt 0)]> metrics in
  let metrics := <["Gross Margin" := get info "grossMargins" (PyInt 0)]> metrics in
  (* Growth metrics *)
  let metrics := <["Revenue Growth" := get info "revenueGrowth" (PyInt 0)]> metrics in
  let metrics := <["Earnings Growth" := get info "earningsGrowth" (PyInt 0)]> metrics in
  (* Dividend metrics *)
  let metrics :=
    <["Dividend Yield" :=
        if truthy (get info "dividendYield" PyNone)
        then get info "dividendYield" (PyInt 0) else PyInt 0]> metrics in
  let metrics :=
    <["Payout Ratio" :=
        if truthy (get info "payoutRatio" PyNone)
        then get info "payoutRatio" (PyInt 0) else PyInt 0]> metrics in
  Ok metrics.

(** The metric names of the mapping and the provider field each is read from. *)
Definition metric_fields : list (string * string) :=
  [ ("Current Price", "currentPrice"); ("52 Week High", "fiftyTwoWeekHigh");
    ("52 Week Low", "fiftyTwoWeekLow"); ("Market Cap (B)", "marketCap");
    ("P/E Ratio", "trailingPE"); ("Forward P/E", "forwardPE");
    ("PEG Ratio", "pegRatio"); ("Price/Book", "priceToBook");
    ("Price/Sales", "priceToSalesTrailing12Months");
    ("EV/EBITDA", "enterpriseToEbitda"); ("Current Ratio", "currentRatio");
    ("Debt/Equity", "debtToEquity"); ("Quick Ratio", "quickRatio");
    ("Return on Equity", "returnOnEquity"); ("Return on Assets", "returnOnAssets");
    ("Profit Margin", "profitMargins"); ("Operating Margin", "operatingMargins");
    ("Gross Margin", "grossMargins"); ("Revenue Growth", "revenueGrowth");
    ("Earnings Growth", "earningsGrowth"); ("Dividend Yield", "dividendYield");
    ("Payout Ratio", "payoutRatio") ].

(** ** Scoring *)

(** The three accumulators of [evaluate_stock]. *)
Record tally : Type := Tally {
  score : Z;
  reasons : list string;
  concerns : list string
}.

(** [score += 1; reasons.append(r)] *)
Definition award (r : string) (t : tally) : tally :=
  {| score := score t + 1; reasons := reasons t ++ [r]; concerns := concerns t |}.

(** [concerns.append(c)] *)
Definition flag (c : string) (t : tally) : tally :=
  {| score := score t; reasons := reasons t; concerns := concerns t ++ [c] |}.

Definition r_pe := "P/E ratio is reasonable (< 25)".
Definition c_pe := "High P/E ratio indicates potential overvaluation".
Definition r_peg := "PEG ratio indicates good value (< 1.5)".
Definition r_pb := "Price/Book ratio is attractive (< 3)".
Definition r_ev := "EV/EBITDA indicates reasonable valuation (< 15)".
Definition r_cr := "Strong current ratio (> 1.5)".
Definition c_cr := "Low current ratio indicates potential liquidity issues".
Definition r_de := "Low debt-to-equity ratio (< 1)".
Definition c_de := "High debt levels relative to equity".
Definition r_roe := "Strong Return on Equity (> 15%)".
Definition r_roa := "Good Return on Assets (> 7%)".
Definition r_om := "Healthy operating margin (> 15%)".
Definition r_rev := "Strong revenue growth (> 10%)".
Definition r_earn := "Strong earnings growth (> 10%)".
Definition r_div := "Sustainable dividend with good yield (> 2%)".

(** [0 < metrics[k] < hi]: the subscript is evaluated once. *)
Definition between (metrics : gmap string pyval) (k : string) (hi : pyval)
    : result bool :=
  x ← getitem metrics k;
  py_and (py_lt (PyInt 0) x) (py_lt x hi).

(** [metrics[k] > lo] and [metrics[k] < hi] *)
Definition above (metrics : gmap string pyval) (k : string) (lo : pyval)
    : result bool :=
  x ← getitem metrics k; py_gt x lo.

Definition below (metrics : gmap string pyval) (k : string) (hi : pyval)
    : result bool :=
  x ← getitem metrics k; py_lt x hi.

(** One predicate group: [if p: award r], optionally followed by
    [elif q: flag c]. *)
Definition when (p : result bool) (r : string) (t : tally) : result tally :=
  b ← p; Ok (if b : bool then award r t else t).

Definition when_elif (p : result bool) (r : string) (q : result bool) (c : string)
    (t : tally) : result tally :=
  b ← p;
  if b : bool then Ok (award r t)
  else b' ← q; Ok (if b' : bool then flag c t else t).

Definition check_pe (metrics : gmap string pyval) : tally → result tally :=
  when_elif (between metrics "P/E Ratio" (PyInt 25)) r_pe
            (above metrics "P/E Ratio" (PyInt 35)) c_pe.

Definition check_peg (metrics : gmap string pyval) : tally → result tally :=
  when (between metrics "PEG Ratio" (PyFloat 1.5)) r_peg.

Definition check_pb (metrics : gmap string pyval) : tally → result tally :=
  when (between metrics "Price/Book" (PyInt 3)) r_pb.

Definition check_ev (metrics : gmap string pyval) : tally → result tally :=
  when (between metrics "EV/EBITDA" (PyInt 15)) r_ev.

Definition check_cr (metrics : gmap string pyval) : tally → result tally :=
  when_elif (above metrics "Current Ratio" (PyFloat 1.5)) r_cr
            (below metrics "Current Ratio" (PyInt 1)) c_cr.

Definition check_de (metrics : gmap string pyval) : tally → result tally :=
  when_elif (below metrics "Debt/Equity" (PyInt 1)) r_de
            (above metrics "Debt/Equity" (PyInt 2)) c_de.

Definition check_roe (metrics : gmap string pyval) : tally → result tally :=
  when (above metrics "Return on Equity" (PyFloat 0.15)) r_roe.

Definition check_roa (metrics : gmap string pyval) : tally → result tally :=
  when (above metrics "Return on Assets" (PyFloat 0.07)) r_roa.

Definition check_om (metrics : gmap string pyval) : tally → result tally :=
  when (above metrics "Operating Margin" (PyFloat 0.15)) r_om.

Definition check_rev (metrics : gmap string pyval) : tally → result tally :=
  when (above metrics "Revenue Growth" (PyFloat 0.1)) r_rev.

Definition check_earn (metrics : gmap string pyval) : tally → result tally :=
  when (above metrics "Earnings Growth" (PyFloat 0.1)) r_earn.

Definition check_div (metrics : gmap string pyval) : tally → result tally :=
  when (py_and (above metrics "Dividend Yield" (PyFloat 0.02))
               (below metrics "Payout Ratio" (PyFloat 0.75))) r_div.

Definition evaluate_stock (metrics : gmap string pyval)
    : result (Z * Z * list string * list string) :=
  let t := {| score := 0; reasons := []; concerns := [] |} in
  let max_score := 12 in
  (* Valuation criteria *)
  t ← check_pe metrics t;
  t ← check_peg metrics t;
  t ← check_pb metrics t;
  t ← check_ev metrics t;
  (* Financial health criteria *)
  t ← check_cr metrics t;
  t ← check_de metrics t;
  (* Profitability criteria *)
  t ← check_roe metrics t;
  t ← check_roa metrics t;
  t ← check_om metrics t;
  (* Growth criteria *)
  t ← check_rev metrics t;
  t ← check_earn metrics t;
  (* Dividend criteria *)
  t ← check_div metrics t;
  Ok (score t, max_score, reasons t, concerns t).

(** The full-pass mapping of the specification's first example. *)
Definition full_pass : gmap string pyval :=
  list_to_map
    [ ("P/E Ratio", PyInt 20); ("PEG Ratio", PyFloat 1.2); ("Price/Book", PyInt 2);
      ("EV/EBITDA", PyInt 10); ("Current Ratio", PyInt 2);
      ("Debt/Equity", PyFloat 0.5); ("Return on Equity", PyFloat 0.2);
      ("Return on Assets", PyFloat 0.1); ("Operating Margin", PyFloat 0.2);
      ("Revenue Growth", PyFloat 0.15); ("Earnings Growth", PyFloat 0.12);
      ("Dividend Yield", PyFloat 0.03); ("Payout Ratio", PyFloat 0.5) ].

(** ** Price history and technical indicators

    A data frame is an index of dates and named float columns; NaN marks a
    missing entry.  Element-wise arithmetic is IEEE binary64.  The windowed
    reductions follow the pandas documentation: [rolling(w).mean()] is
    missing until [w] observations are in the window, [ewm(span, adjust=False)]
    is the recursive average with [alpha = 2 / (span + 1)], and
    [fillna(method='bfill')] copies the next valid observation backwards. *)

Record frame : Type := Frame {
  index : list string;
  columns : gmap string (list float)
}.

(** [hist.empty]: some axis has length zero. *)
Definition empty (hist : frame) : bool :=
  (length (index hist) =? 0)%nat || (size (columns hist) =? 0)%nat.

(** [hist[k]] *)
Definition column (hist : frame) (k : string) : result (list float) :=
  match columns hist !! k with
  | Some s => Ok s
  | None => Raise (KeyError k)
  end.

(** [hist[k] = s] *)
Definition set_column (k : string) (s : list float) (hist : frame) : frame :=
  {| index := index hist; columns := <[k := s]> (columns hist) |}.

Definition float_of_nat (n : nat) : float :=
  of_uint63 (Uint63.of_Z (Z.of_nat n)).

Fixpoint diff_from (prev : float) (s : list float) : list float :=
  match s with
  | [] => []
  | x :: s' => (x - prev)%float :: diff_from x s'
  end.

(** [s.diff()] *)
Definition diff (s : list float) : list float :=
  match s with
  | [] => []
  | x :: s' => nan :: diff_from x s'
  end.

(** [s.where(cond, other)] *)
Definition where_ (s : list float) (cond : list bool) (other : float)
    : list float :=
  zip_with (fun x (b : bool) => if b then x else other) s cond.

Definition window_mean (w : list float) : float :=
  (fold_left add w 0 / float_of_nat (length w))%float.

(** [s.rolling(window=w).mean()] *)
Definition rolling_mean (w : nat) (s : list float) : list float :=
  imap (fun i _ =>
          if (i + 1 <? w)%nat then nan
          else window_mean (take w (drop (i + 1 - w) s))) s.

Fixpoint ewm_from (alpha weighted old_wt : float) (s : list float)
    : list float :=
  match s with
  | [] => []
  | cur :: s' =>
      if is_nan weighted then
        cur :: ewm_from alpha cur 1 s'
      else
        let old_wt := (old_wt * (1 - alpha))%float in
        if is_nan cur then weighted :: ewm_from alpha weighted old_wt s'
        else
          let weighted :=
            ((old_wt * weighted + alpha * cur) / (old_wt + alpha))%float in
          weighted :: ewm_from alpha weighted 1 s'
  end.

(** [s.ewm(span=span, adjust=False).mean()] *)
Definition ewm_mean (span : nat) (s : list float) : list float :=
  let alpha := (2 / (float_of_nat span + 1))%float in
  match s with
  | [] => []
  | x :: s' => x :: ewm_from alpha x 1 s'
  end.

(** Back-fill of one column. *)
Fixpoint bfill (s : list float) : list float :=
  match s with
  | [] => []
  | x :: s' =>
      let r := bfill s' in
      (if is_nan x then hd x r else x) :: r
  end.

(** [hist.fillna(method='bfill')] *)
Definition fillna_bfill (hist : frame) : frame :=
  {| index := index hist; columns := bfill <$> columns hist |}.

(** The relative-strength formula of one row: [100 - (100 / (1 + gain / loss))]. *)
Definition rsi_value (gain loss : float) : float :=
  (100 - 100 / (1 + gain / loss))%float.

(** The module binds [calculate_technical_indicators] twice; the later
    definition, which ends with the back-fill, is the one in force. *)
Definition calculate_technical_indicators (hist : frame) : result frame :=
  (* Moving averages *)
  close ← column hist "Close";
  let hist := set_column "MA50" (rolling_mean 50 close) hist in
  close ← column hist "Close";
  let hist := set_column "MA200" (rolling_mean 200 close) hist in
  (* RSI *)
  close ← column hist "Close";
  let delta := diff close in
  let gain :=
    rolling_mean 14 (where_ delta (map (fun d => 0 <? d)%float delta) 0) in
  let loss :=
    rolling_mean 14
      (map opp (where_ delta (map (fun d => d <? 0)%float delta) 0)) in
  let hist := set_column "RSI" (zip_with rsi_value gain loss) hist in
  (* MACD *)
  close ← column hist "Close";
  let exp1 := ewm_mean 12 close in
  close ← column hist "Close";
  let exp2 := ewm_mean 26 close in
  let hist := set_column "MACD" (zip_with sub exp1 exp2) hist in
  macd ← column hist "MACD";
  let hist := set_column "Signal" (ewm_mean 9 macd) hist in
  (* Fill NaN values *)
  let hist := fillna_bfill hist in
  Ok hist.

(** ** Data acquisition *)

(** What the dashboard has put on the page. *)
Inductive widget (Figure : Type) : Type :=
  | StError (msg : string)
  | StHeader (body : string)
  | StWrite (body : pyval)
  | StMetric (label value : string)
  | StPlotlyChart (fig : Figure).
Arguments StError {Figure} msg.
Arguments StHeader {Figure} body.
Arguments StWrite {Figure} body.
Arguments StMetric {Figure} label value.
Arguments StPlotlyChart {Figure} fig.

(** A computation that may raise and that appends widgets to the page. *)
Definition action (Figure A : Type) : Type :=
  list (widget Figure) → result A * list (widget Figure).

#[export] Instance action_ret {Figure} : MRet (action Figure) :=
  fun A a page => (Ok a, page).
#[export] Instance action_bind {Figure} : MBind (action Figure) :=
  fun A B f c page =>
    match c page with
    | (Ok a, page') => f a page'
    | (Raise e, page') => (Raise e, page')
    end.

Definition lift {Figure A} (r : result A) : action Figure A :=
  fun page => (r, page).

Definition raise {Figure A} (e : exn) : action Figure A :=
  fun page => (Raise e, page).

Definition st_put {Figure} (w : widget Figure) : action Figure unit :=
  fun page => (Ok tt, (page ++ [w])%list).

(** [try: body  except Exception as e: handler e] *)
Definition try_except {Figure A} (body : action Figure A)
    (handler : exn → action Figure A) : action Figure A :=
  fun page =>
    match body page with
    | (Ok a, page') => (Ok a, page')
    | (Raise e, page') => handler e page'
    end.

(** [repr] of a string key, without escapes. *)
Definition repr_str (s : string) : string := "'" +:+ s +:+ "'".

(** [str(e)] *)
Definition str_exn (e : exn) : string :=
  match e with
  | KeyError k => repr_str k
  | TypeError msg | ValueError msg | OverflowError msg
  | ZeroDivisionError msg | RuntimeError msg => msg
  end.

(** The provider's answer for one ticker: every access may raise. *)
Record ticker_obj (Sheet : Type) : Type := TickerObj {
  t_info : result (gmap string pyval);
  t_history : string → result frame;
  t_balance_sheet : result Sheet;
  t_income_stmt : result Sheet;
  t_cash_flow : result Sheet
}.
Arguments t_info {Sheet} _.
Arguments t_history {Sheet} _ _.
Arguments t_balance_sheet {Sheet} _.
Arguments t_income_stmt {Sheet} _.
Arguments t_cash_flow {Sheet} _.

Section Dashboard.
Context {Sheet Figure : Type}.
(** [yf.Ticker]: the market-data provider. *)
Variable yf_Ticker : string → result (ticker_obj Sheet).
(** Presentation helpers that stay outside the embedding: [str], the
    [:.2f] format and the chart builder. *)
Variable py_str : pyval → string.
Variable format_2f : pyval → result string.
Variable plot_technical_analysis : frame → result Figure.

(** As for the indicators, the later of the two bindings of
    [get_stock_data] is the one in force. *)
Definition get_stock_data (ticker : string)
    : action Figure (gmap string pyval * frame * Sheet * Sheet * Sheet) :=
  try_except
    (stock ← lift (yf_Ticker ticker);
     info ← lift (t_info stock);
     (* Get historical data for the past year *)
     hist ← lift (t_history stock "1y");
     if empty hist
     then raise (ValueError ("No historical data found for " +:+ ticker))
     else
       hist ← lift (calculate_technical_indicators hist);
       (* Get financial statements *)
       balance_sheet ← lift (t_balance_sheet stock);
       income_stmt ← lift (t_income_stmt stock);
       cash_flow ← lift (t_cash_flow stock);
       mret (info, hist, balance_sheet, income_stmt, cash_flow))
    (fun e =>
       st_put (StError ("Error fetching data for " +:+ ticker +:+ ": "
                        +:+ str_exn e));;
       raise e).

(** The body run by [main] once the Analyze button is pressed. *)
Definition analyze (ticker : string) : action Figure unit :=
  try_except
    ('(info, hist, balance_sheet, income_stmt, cash_flow) ← get_stock_data ticker;
     metrics ← lift (calculate_metrics info hist balance_sheet income_stmt cash_flow);
     (* Company info *)
     st_put (StHeader (py_str (get info "longName" (PyStr ticker))
                       +:+ " (" +:+ ticker +:+ ")"));;
     st_put (StWrite (get info "longBusinessSummary"
                          (PyStr "No description available")));;
     price ← lift (getitem metrics "Current Price" ≫= format_2f);
     st_put (StMetric "Current Price" ("$" +:+ price));;
     cap ← lift (getitem metrics "Market Cap (B)" ≫= format_2f);
     st_put (StMetric "Market Cap" ("$" +:+ cap +:+ "B"));;
     (* Technical Analysis *)
     fig ← lift (plot_technical_analysis hist);
     st_put (StPlotlyChart fig))
    (fun e =>
       st_put (StError ("Error analyzing " +:+ ticker +:+ ". Please try again."));;
       st_put (StError ("Error details: " +:+ str_exn e))).
End Dashboard.

(** ** Vocabulary for the properties *)

(** The twelve predicate groups of [evaluate_stock], in source order. *)
Inductive group : Type :=
  | PE | PEG | PB | EV | CR | DE | ROE | ROA | OM | REV | EARN | DIV.

Definition groups : list group :=
  [PE; PEG; PB; EV; CR; DE; ROE; ROA; OM; REV; EARN; DIV].

Definition check (g : group) : gmap string pyval → tally → result tally :=
  match g with
  | PE => check_pe | PEG => check_peg | PB => check_pb | EV => check_ev
  | CR => check_cr | DE => check_de
  | ROE => check_roe | ROA => check_roa | OM => check_om
  | REV => check_rev | EARN => check_earn
  | DIV => check_div
  end.

Definition reason_of (g : group) : string :=
  match g with
  | PE => r_pe | PEG => r_peg | PB => r_pb | EV => r_ev
  | CR => r_cr | DE => r_de
  | ROE => r_roe | ROA => r_roa | OM => r_om
  | REV => r_rev | EARN => r_earn
  | DIV => r_div
  end.

Definition concern_of (g : group) : option string :=
  match g with
  | PE => Some c_pe
  | CR => Some c_cr
  | DE => Some c_de
  | _ => None
  end.

(** The keys a group subscripts. *)
Definition keys_of (g : group) : list string :=
  match g with
  | PE => ["P/E Ratio"] | PEG => ["PEG Ratio"] | PB => ["Price/Book"]
  | EV => ["EV/EBITDA"] | CR => ["Current Ratio"] | DE => ["Debt/Equity"]
  | ROE => ["Return on Equity"] | ROA => ["Return on Assets"]
  | OM => ["Operating Margin"] | REV => ["Revenue Growth"]
  | EARN => ["Earnings Growth"]
  | DIV => ["Dividend Yield"; "Payout Ratio"]
  end.

(** The thirteen keys the scorer reads. *)
Definition scorer_keys : list string := groups ≫= keys_of.

(** The reason and concern texts in the order of the threshold table. *)
Definition all_reasons : list string := reason_of <$> groups.
Definition all_concerns : list string := omap concern_of groups.

(** Running a list of groups one after the other. *)
Fixpoint run (gs : list group) (metrics : gmap string pyval) (t : tally)
    : result tally :=
  match gs with
  | [] => Ok t
  | g :: gs' => check g metrics t ≫= run gs' metrics
  end.

(** The accumulators after some reasons and concerns were appended. *)
Definition extend (t : tally) (rs cs : list string) : tally :=
  {| score := score t + Z.of_nat (length rs);
     reasons := reasons t ++ rs;
     concerns := concerns t ++ cs |}.

Definition is_number (v : pyval) : Prop := is_Some (num_value v).

(** [v == 0] *)
Definition is_zero (v : pyval) : bool :=
  match num_value v with
  | Some (XFin q) => Qeq_bool q 0
  | _ => false
  end.

(** Every listed key is present and holds a value satisfying [P]. *)
Definition holds_on (P : pyval → Prop) (ks : list string)
    (metrics : gmap string pyval) : Prop :=
  Forall (fun k => ∃ v, metrics !! k = Some v ∧ P v) ks.

(** A group can append a concern on some input. *)
Definition can_flag (g : group) : Prop :=
  ∃ metrics t t', check g metrics t = Ok t' ∧ concerns t' ≠ concerns t.

(** The second example of the specification. *)
Definition three_concerns : gmap string pyval :=
  <["P/E Ratio" := PyInt 40]>
    (<["Current Ratio" := PyFloat 0.8]>
       (<["Debt/Equity" := PyFloat 2.5]> full_pass)).

(** The mapping extracted from a profile without any field. *)
Definition empty_profile_metrics : gmap string pyval :=
  match calculate_metrics (∅ : gmap string pyval) tt tt tt tt with
  | Ok metrics => metrics
  | Raise _ => ∅
  end.

(** Profiles in which one field is present and null. *)
Definition null_pe_profile : gmap string pyval := {[ "trailingPE" := PyNone ]}.
Definition null_cap_profile : gmap string pyval := {[ "marketCap" := PyNone ]}.
Definition null_yield_profile : gmap string pyval := {[ "dividendYield" := PyNone ]}.

(** A provider without any price history for the ticker: its frame has no
    row and no column, and its statements cannot be fetched. *)
Definition no_history_provider (ticker : string) : result (ticker_obj unit) :=
  Ok {| t_info := Ok ∅;
        t_history := fun _ => Ok {| index := []; columns := ∅ |};
        t_balance_sheet := Raise (RuntimeError "balance sheet unavailable");
        t_income_stmt := Raise (RuntimeError "income statement unavailable");
        t_cash_flow := Raise (RuntimeError "cash flow unavailable") |}.

(** A year (252 trading days) of unchanged closing prices. *)
Definition flat_history : frame :=
  {| index := (fun d => "day " +:+ pretty d) <$> seq 1 252;
     columns := {[ "Close" := replicate 252 10%float ]} |}.

(** ** Further vocabulary *)

(** The keys a group subscripts whatever their values: all of them, except
    that the dividend test reads the payout ratio only after the yield
    passed. *)
Definition first_keys_of (g : group) : list string := take 1 (keys_of g).

Definition always_read : list string := groups ≫= first_keys_of.

(** [v] is a float NaN. *)
Definition is_nan_value (v : pyval) : Prop := num_value v = Some XNaN.

(** A mapping with NaN under every key the scorer reads. *)
Definition nan_metrics : gmap string pyval :=
  list_to_map ((fun k => (k, PyFloat nan)) <$> scorer_keys).


(** What an exception of a test on the keys [ks] can be. *)
Definition key_or_type (metrics : gmap string pyval) (ks : list string)
    (e : exn) : Prop :=
  (∃ k, k ∈ ks ∧ metrics !! k = None ∧ e = KeyError k)
  ∨ ∃ msg, e = TypeError msg.


(** The metrics copied from the profile as they are: all but the market
    capitalisation (which is divided) and the two dividend entries (which
    are guarded). *)
Definition plain_fields : list (string * string) :=
  filter (fun p => p.1 ∉ ["Market Cap (B)"; "Dividend Yield"; "Payout Ratio"])
         metric_fields.

Definition dividend_fields : list (string * string) :=
  [ ("Dividend Yield", "dividendYield"); ("Payout Ratio", "payoutRatio") ].

(** The mappings extracted from the one-field profiles. *)
Definition null_pe_metrics : gmap string pyval :=
  match calculate_metrics null_pe_profile tt tt tt tt with
  | Ok metrics => metrics
  | Raise _ => ∅
  end.

Definition null_yield_metrics : gmap string pyval :=
  match calculate_metrics null_yield_profile tt tt tt tt with
  | Ok metrics => metrics
  | Raise _ => ∅
  end.

(** The columns the indicator step adds. *)
Definition derived_columns : list string :=
  ["MA50"; "MA200"; "RSI"; "MACD"; "Signal"].

(** The frame computed from the flat history. *)
Definition flat_indicators : frame :=
  match calculate_technical_indicators flat_history with
  | Ok hist => hist
  | Raise _ => flat_history
  end.

(** Sixteen days of rising closes, and the frame computed from them. *)
Definition short_history : frame :=
  {| index := (fun d => "day " +:+ pretty d) <$> seq 1 16;
     columns := {[ "Close" := float_of_nat <$> seq 1 16 ]} |}.

Definition short_indicators : frame :=
  match calculate_technical_indicators short_history with
  | Ok hist => hist
  | Raise _ => short_history
  end.

(** ** The chart

    The figure is modelled by what the code hands to the plotting library:
    the sub-plot grid, the traces with their data and position, the
    horizontal lines, and the layout and axis settings.  Rendering stays
    outside the embedding. *)

Inductive trace : Type :=
  | Candlestick (x : list string) (open high low close : list float)
      (name : string)
  | Scatter (x : list string) (y : list float) (name : string)
      (line_color : string).

Record hline : Type := HLine {
  hl_y : Z;
  hl_dash : string;
  hl_color : string;
  hl_row : nat;
  hl_col : nat
}.

Record figure : Type := MkFigure {
  fig_rows : nat;
  fig_cols : nat;
  fig_shared_xaxes : bool;
  fig_vertical_spacing : float;
  fig_row_heights : list float;
  fig_subplot_titles : list string;
  fig_traces : list (trace * nat * nat);
  fig_hlines : list hline;
  fig_height : option Z;
  fig_showlegend : option bool;
  fig_rangeslider_visible : option bool;
  fig_title : option string;
  fig_yaxis_titles : list (string * nat * nat)
}.

Definition make_subplots (rows cols : nat) (shared_xaxes : bool)
    (vertical_spacing : float) (row_heights : list float)
    (subplot_titles : list string) : figure :=
  {| fig_rows := rows; fig_cols := cols; fig_shared_xaxes := shared_xaxes;
     fig_vertical_spacing := vertical_spacing; fig_row_heights := row_heights;
     fig_subplot_titles := subplot_titles;
     fig_traces := []; fig_hlines := [];
     fig_height := None; fig_showlegend := None;
     fig_rangeslider_visible := None; fig_title := None;
     fig_yaxis_titles := [] |}.

Definition add_trace (fig : figure) (t : trace) (row col : nat) : figure :=
  {| fig_rows := fig_rows fig; fig_cols := fig_cols fig;
     fig_shared_xaxes := fig_shared_xaxes fig;
     fig_vertical_spacing := fig_vertical_spacing fig;
     fig_row_heights := fig_row_heights fig;
     fig_subplot_titles := fig_subplot_titles fig;
     fig_traces := fig_traces fig ++ [(t, row, col)];
     fig_hlines := fig_hlines fig;
     fig_height := fig_height fig; fig_showlegend := fig_showlegend fig;
     fig_rangeslider_visible := fig_rangeslider_visible fig;
     fig_title := fig_title fig;
     fig_yaxis_titles := fig_yaxis_titles fig |}.

Definition add_hline (fig : figure) (y : Z) (line_dash line_color : string)
    (row col : nat) : figure :=
  {| fig_rows := fig_rows fig; fig_cols := fig_cols fig;
     fig_shared_xaxes := fig_shared_xaxes fig;
     fig_vertical_spacing := fig_vertical_spacing fig;
     fig_row_heights := fig_row_heights fig;
     fig_subplot_titles := fig_subplot_titles fig;
     fig_traces := fig_traces fig;
     fig_hlines := fig_hlines fig ++ [HLine y line_dash line_color row col];
     fig_height := fig_height fig; fig_showlegend := fig_showlegend fig;
     fig_rangeslider_visible := fig_rangeslider_visible fig;
     fig_title := fig_title fig;
     fig_yaxis_titles := fig_yaxis_titles fig |}.

Definition update_layout (fig : figure) (height : Z) (showlegend : bool)
    (xaxis_rangeslider_visible : bool) (title : string) : figure :=
  {| fig_rows := fig_rows fig; fig_cols := fig_cols fig;
     fig_shared_xaxes := fig_shared_xaxes fig;
     fig_vertical_spacing := fig_vertical_spacing fig;
     fig_row_heights := fig_row_heights fig;
     fig_subplot_titles := fig_subplot_titles fig;
     fig_traces := fig_traces fig;
     fig_hlines := fig_hlines fig;
     fig_height := Some height; fig_showlegend := Some showlegend;
     fig_rangeslider_visible := Some xaxis_rangeslider_visible;
     fig_title := Some title;
     fig_yaxis_titles := fig_yaxis_titles fig |}.

Definition update_yaxes (fig : figure) (title_text : string) (row col : nat)
    : figure :=
  {| fig_rows := fig_rows fig; fig_cols := fig_cols fig;
     fig_shared_xaxes := fig_shared_xaxes fig;
     fig_vertical_spacing := fig_vertical_spacing fig;
     fig_row_heights := fig_row_heights fig;
     fig_subplot_titles := fig_subplot_titles fig;
     fig_traces := fig_traces fig;
     fig_hlines := fig_hlines fig;
     fig_height := fig_height fig; fig_showlegend := fig_showlegend fig;
     fig_rangeslider_visible := fig_rangeslider_visible fig;
     fig_title := fig_title fig;
     fig_yaxis_titles := fig_yaxis_titles fig ++ [(title_text, row, col)] |}.

Definition plot_technical_analysis (hist : frame) : result figure :=
  (* Create figure with secondary y-axis *)
  let fig := make_subplots 3 1 true 0.05 [0.6; 0.2; 0.2]%float
               ["Price"; "RSI"; "MACD"] in
  (* Candlestick chart with MA *)
  open ← column hist "Open";
  high ← column hist "High";
  low ← column hist "Low";
  close ← column hist "Close";
  let fig := add_trace fig
               (Candlestick (index hist) open high low close "Price") 1 1 in
  ma50 ← column hist "MA50";
  let fig := add_trace fig (Scatter (index hist) ma50 "50-day MA" "orange")
               1 1 in
  ma200 ← column hist "MA200";
  let fig := add_trace fig (Scatter (index hist) ma200 "200-day MA" "blue")
               1 1 in
  (* RSI *)
  rsi ← column hist "RSI";
  let fig := add_trace fig (Scatter (index hist) rsi "RSI" "purple") 2 1 in
  (* Add RSI levels *)
  let fig := add_hline fig 70 "dash" "red" 2 1 in
  let fig := add_hline fig 30 "dash" "green" 2 1 in
  (* MACD *)
  macd ← column hist "MACD";
  let fig := add_trace fig (Scatter (index hist) macd "MACD" "blue") 3 1 in
  signal ← column hist "Signal";
  let fig := add_trace fig (Scatter (index hist) signal "Signal" "orange")
               3 1 in
  (* Update layout *)
  let fig := update_layout fig 800 true false "Technical Analysis" in
  (* Update y-axes labels *)
  let fig := update_yaxes fig "Price" 1 1 in
  let fig := update_yaxes fig "RSI" 2 1 in
  let fig := update_yaxes fig "MACD" 3 1 in
  Ok fig.

(** The columns the chart reads, in the order it reads them. *)
Definition plot_columns : list string :=
  ["Open"; "High"; "Low"; "Close"; "MA50"; "MA200"; "RSI"; "MACD"; "Signal"].

(** A two-day price history with all its columns. *)
Definition two_days : frame :=
  {| index := ["2024-01-02"; "2024-01-03"];
     columns :=
       list_to_map
         [ ("Open", [10; 11]%float); ("High", [12; 12.5]%float);
           ("Low", [9.5; 10.5]%float); ("Close", [11; 12]%float);
           ("Volume", [1000; 1200]%float) ] |}.

Definition two_days_indicators : frame :=
  match calculate_technical_indicators two_days with
  | Ok hist => hist
  | Raise _ => two_days
  end.

Definition trace_name (t : trace) : string :=
  match t with
  | Candlestick _ _ _ _ _ name => name
  | Scatter _ _ name _ => name
  end.

(** * Properties *)

(** ** Comparisons and lookups on concrete values *)

Example lt_int_float : py_lt (PyInt 0) (PyFloat 1.2) = Ok true.
Proof. vm_compute. reflexivity. Qed.

Example gt_threshold_itself : py_gt (PyFloat 0.15) (PyFloat 0.15) = Ok false.
Proof. vm_compute. reflexivity. Qed.

Example gt_nan : py_gt (PyFloat nan) (PyInt 35) = Ok false.
Proof. vm_compute. reflexivity. Qed.

Example lt_none :
  py_lt (PyInt 0) PyNone =
  Raise (TypeError "'<' not supported between instances of 'int' and 'NoneType'").
Proof. vm_compute. reflexivity. Qed.

Example missing_key : evaluate_stock ∅ = Raise (KeyError "P/E Ratio").
Proof. vm_compute. reflexivity. Qed.

Example market_cap_in_billions :
  py_truediv (PyInt 3000000000000) 1e9 = Ok (PyFloat 3000).
Proof. vm_compute. reflexivity. Qed.

(** ** Order on exact values *)

Lemma Qltb_lt p q : Qltb p q = true ↔ (p < q)%Q.
Proof.
  unfold Qltb. rewrite Qlt_alt.
  destruct (p ?= q)%Q; split; congruence.
Qed.

Lemma xlt_trans x y z : xlt x y = true → xlt y z = true → xlt x z = true.
Proof.
  destruct x, y, z; simpl; try congruence.
  rewrite !Qltb_lt. apply Qlt_trans.
Qed.

Lemma xlt_irrefl x : xlt x x = false.
Proof.
  destruct x; simpl; try reflexivity.
  apply not_true_is_false. rewrite Qltb_lt. apply Qlt_irrefl.
Qed.

Lemma xlt_asym x y : xlt x y = true → xlt y x = false.
Proof.
  intros H. apply not_true_is_false. intros H'.
  pose proof (xlt_trans _ _ _ H H') as Hxx.
  rewrite xlt_irrefl in Hxx. discriminate.
Qed.

(** ** Shape of one predicate group *)

Lemma when_inv p r t t' : when p r t = Ok t' → t' = t ∨ t' = award r t.
Proof.
  unfold when. destruct p as [[]|]; simpl; intros [= <-]; auto.
Qed.

Lemma when_elif_inv p r q c t t' :
  when_elif p r q c t = Ok t' → t' = t ∨ t' = award r t ∨ t' = flag c t.
Proof.
  unfold when_elif. destruct p as [[]|]; simpl; [intros [= <-]; auto| |done].
  destruct q as [[]|]; simpl; intros [= <-]; auto.
Qed.

Lemma check_inv g metrics t t' :
  check g metrics t = Ok t' →
  t' = t ∨ t' = award (reason_of g) t
  ∨ ∃ c, concern_of g = Some c ∧ t' = flag c t.
Proof.
  destruct g; simpl; intros H;
    first [ apply when_inv in H as [->| ->]
          | apply when_elif_inv in H as [->|[->| ->]] ];
    eauto.
Qed.

Lemma extend_nil t : extend t [] [] = t.
Proof.
  destruct t as [s rs cs]. unfold extend; simpl.
  rewrite Z.add_0_r, !app_nil_r. reflexivity.
Qed.

Lemma extend_award r t rs cs :
  extend (award r t) rs cs = extend t (r :: rs) cs.
Proof.
  unfold extend, award; simpl. rewrite <- app_assoc. f_equal. lia.
Qed.

Lemma extend_flag c t rs cs :
  extend (flag c t) rs cs = extend t rs (c :: cs).
Proof.
  unfold extend, flag; simpl. rewrite <- app_assoc. reflexivity.
Qed.

(** After any run, the tally has grown by a selection of the groups'
    reasons and concerns, taken in the order of the groups. *)
Lemma run_shape gs metrics t t' :
  run gs metrics t = Ok t' →
  ∃ rs cs, t' = extend t rs cs
           ∧ rs `sublist_of` (reason_of <$> gs)
           ∧ cs `sublist_of` omap concern_of gs.
Proof.
  revert t. induction gs as [|g gs IH]; simpl; intros t H.
  - injection H as <-. exists [], []. rewrite extend_nil.
    split; [done|]. split; constructor.
  - destruct (check g metrics t) as [t1|] eqn:Hg; simpl in H; [|done].
    apply IH in H as (rs & cs & -> & Hrs & Hcs).
    apply check_inv in Hg as [->|[->|(c & Hc & ->)]].
    + exists rs, cs. split; [done|]. split; [by apply sublist_cons|].
      destruct (concern_of g); [by apply sublist_cons|done].
    + exists (reason_of g :: rs), cs. rewrite extend_award.
      split; [done|]. split; [by apply sublist_skip|].
      destruct (concern_of g); [by apply sublist_cons|done].
    + exists rs, (c :: cs). rewrite extend_flag, Hc.
      split; [done|]. split; [by apply sublist_cons|by apply sublist_skip].
Qed.

Lemma evaluate_stock_run metrics :
  evaluate_stock metrics =
  run groups metrics {| score := 0; reasons := []; concerns := [] |}
    ≫= fun t => Ok (score t, 12, reasons t, concerns t).
Proof.
  unfold evaluate_stock, groups, run, check.
  repeat match goal with
         | |- context [?c metrics ?t ≫= _] =>
             destruct (c metrics t); simpl; [|reflexivity]
         end.
  reflexivity.
Qed.

Lemma evaluate_stock_shape metrics s mx rs cs :
  evaluate_stock metrics = Ok (s, mx, rs, cs) →
  mx = 12 ∧ s = Z.of_nat (length rs)
  ∧ rs `sublist_of` all_reasons ∧ cs `sublist_of` all_concerns.
Proof.
  rewrite evaluate_stock_run.
  destruct (run groups metrics _) as [t|] eqn:Hrun; simpl; [|done].
  intros [= <- <- <- <-].
  apply run_shape in Hrun as (rs & cs & -> & Hrs & Hcs).
  simpl. auto.
Qed.

(** ** Totality on numeric mappings *)

Lemma py_lt_number a b :
  is_number a → is_number b → ∃ r, py_lt a b = Ok r.
Proof. intros [x Hx] [y Hy]. unfold py_lt. rewrite Hx, Hy. eauto. Qed.

Lemma py_gt_number a b :
  is_number a → is_number b → ∃ r, py_gt a b = Ok r.
Proof. intros [x Hx] [y Hy]. unfold py_gt. rewrite Hx, Hy. eauto. Qed.

Lemma is_number_int z : is_number (PyInt z).
Proof. unfold is_number; simpl; eauto. Qed.

Lemma is_number_float f : is_number (PyFloat f).
Proof. unfold is_number; simpl; eauto. Qed.

#[local] Hint Resolve is_number_int is_number_float : core.

Lemma between_total metrics k v hi :
  metrics !! k = Some v → is_number v → is_number hi →
  ∃ r, between metrics k hi = Ok r.
Proof.
  intros Hk Hv Hhi. unfold between, getitem. rewrite Hk. simpl.
  destruct (py_lt_number (PyInt 0) v) as [[] ->]; simpl; eauto.
  by apply py_lt_number.
Qed.

Lemma above_total metrics k v lo :
  metrics !! k = Some v → is_number v → is_number lo →
  ∃ r, above metrics k lo = Ok r.
Proof.
  intros Hk Hv Hlo. unfold above, getitem. rewrite Hk. simpl.
  by apply py_gt_number.
Qed.

Lemma below_total metrics k v hi :
  metrics !! k = Some v → is_number v → is_number hi →
  ∃ r, below metrics k hi = Ok r.
Proof.
  intros Hk Hv Hhi. unfold below, getitem. rewrite Hk. simpl.
  by apply py_lt_number.
Qed.

Lemma when_total p r t : (∃ b, p = Ok b) → ∃ t', when p r t = Ok t'.
Proof. intros [b ->]. unfold when; simpl; eauto. Qed.

Lemma when_elif_total p r q c t :
  (∃ b, p = Ok b) → (∃ b, q = Ok b) → ∃ t', when_elif p r q c t = Ok t'.
Proof. intros [[] ->] [b ->]; unfold when_elif; simpl; eauto. Qed.

Lemma check_total g metrics t :
  holds_on is_number (keys_of g) metrics → ∃ t', check g metrics t = Ok t'.
Proof.
  unfold holds_on. destruct g; simpl; intros H.
  12: {
    (* the joint dividend test *)
    apply Forall_cons in H as [(y & Hy & Hyn) H].
    apply Forall_cons in H as [(p & Hp & Hpn) _].
    apply when_total. unfold py_and.
    destruct (above_total metrics "Dividend Yield" y (PyFloat 0.02))
      as [[] ->]; simpl; eauto using below_total. }
  all: apply Forall_cons in H as [(v & Hv & Hvn) _];
    first [ apply when_elif_total | apply when_total ];
    eauto using between_total, above_total, below_total.
Qed.

Lemma run_total gs metrics t :
  holds_on is_number (gs ≫= keys_of) metrics → ∃ t', run gs metrics t = Ok t'.
Proof.
  unfold holds_on. revert t. induction gs as [|g gs IH]; simpl; intros t H.
  - eauto.
  - apply Forall_app in H as [Hg Hgs].
    destruct (check_total g metrics t Hg) as [t1 ->]. simpl. by apply IH.
Qed.

Lemma evaluate_stock_total metrics :
  holds_on is_number scorer_keys metrics →
  ∃ s rs cs, evaluate_stock metrics = Ok (s, 12, rs, cs).
Proof.
  intros H. rewrite evaluate_stock_run.
  destruct (run_total groups metrics
              {| score := 0; reasons := []; concerns := [] |} H) as [t ->].
  simpl. eauto.
Qed.

(** ** The scorer only looks at the keys it subscripts *)

Lemma check_agree g m1 m2 t :
  Forall (fun k => m1 !! k = m2 !! k) (keys_of g) →
  check g m1 t = check g m2 t.
Proof.
  destruct g; simpl; intros H;
    repeat match goal with
           | H : Forall _ (_ :: _) |- _ => apply Forall_cons in H as [? H]
           end;
    unfold check_pe, check_peg, check_pb, check_ev, check_cr, check_de,
      check_roe, check_roa, check_om, check_rev, check_earn, check_div,
      between, above, below, getitem;
    repeat match goal with
           | H : m1 !! _ = m2 !! _ |- _ => rewrite H; clear H
           end;
    reflexivity.
Qed.

Lemma run_agree gs m1 m2 t :
  Forall (fun k => m1 !! k = m2 !! k) (gs ≫= keys_of) →
  run gs m1 t = run gs m2 t.
Proof.
  revert t. induction gs as [|g gs IH]; simpl; intros t H; [done|].
  apply Forall_app in H as [Hg Hgs].
  rewrite (check_agree g m1 m2 t Hg).
  destruct (check g m2 t); simpl; auto.
Qed.

(** ** Concern thresholds *)

Lemma py_lt_gt_gap v a b xa xb :
  num_value a = Some xa → num_value b = Some xb → xlt xb xa = false →
  py_lt v a = Ok true → py_gt v b = Ok true → False.
Proof.
  intros Ha Hb Hgap. unfold py_lt, py_gt. rewrite Ha, Hb.
  destruct (num_value v) as [x|].
  - intros [= Hlt] [= Hgt].
    rewrite (xlt_trans _ _ _ Hgt Hlt) in Hgap. discriminate.
  - destruct v, a; simpl in *; congruence.
Qed.

Lemma pe_thresholds_disjoint metrics :
  ¬ (between metrics "P/E Ratio" (PyInt 25) = Ok true
     ∧ above metrics "P/E Ratio" (PyInt 35) = Ok true).
Proof.
  unfold between, above, getitem.
  destruct (metrics !! "P/E Ratio") as [v|]; simpl; [|by intros [? _]].
  unfold py_and. destruct (py_lt (PyInt 0) v) as [[]|]; simpl;
    [|by intros [? _]..].
  intros [Hlt Hgt].
  by eapply (py_lt_gt_gap v (PyInt 25) (PyInt 35)).
Qed.

Lemma cr_thresholds_disjoint metrics :
  ¬ (above metrics "Current Ratio" (PyFloat 1.5) = Ok true
     ∧ below metrics "Current Ratio" (PyInt 1) = Ok true).
Proof.
  unfold above, below, getitem.
  destruct (metrics !! "Current Ratio") as [v|]; simpl; [|by intros [? _]].
  intros [Hgt Hlt].
  by eapply (py_lt_gt_gap v (PyInt 1) (PyFloat 1.5)).
Qed.

Lemma de_thresholds_disjoint metrics :
  ¬ (below metrics "Debt/Equity" (PyInt 1) = Ok true
     ∧ above metrics "Debt/Equity" (PyInt 2) = Ok true).
Proof.
  unfold above, below, getitem.
  destruct (metrics !! "Debt/Equity") as [v|]; simpl; [|by intros [? _]].
  intros [Hlt Hgt].
  by eapply (py_lt_gt_gap v (PyInt 1) (PyInt 2)).
Qed.

Lemma award_reasons r t : reasons (award r t) ≠ reasons t.
Proof.
  simpl. intros H. apply (f_equal length) in H.
  rewrite length_app in H. simpl in H. lia.
Qed.

Lemma flag_concerns c t : concerns (flag c t) ≠ concerns t.
Proof.
  simpl. intros H. apply (f_equal length) in H.
  rewrite length_app in H. simpl in H. lia.
Qed.

Lemma can_flag_inv g : can_flag g → g = PE ∨ g = CR ∨ g = DE.
Proof.
  intros (metrics & t & t' & Hg & Hne).
  apply check_inv in Hg as [->|[->|(c & Hc & ->)]]; [done..|].
  destruct g; simpl in Hc; try discriminate; auto.
Qed.

Lemma can_flag_pe : can_flag PE.
Proof.
  exists three_concerns, (Tally 0 [] []), (flag c_pe (Tally 0 [] [])).
  split; [vm_compute; reflexivity|apply flag_concerns].
Qed.

Lemma can_flag_cr : can_flag CR.
Proof.
  exists three_concerns, (Tally 0 [] []), (flag c_cr (Tally 0 [] [])).
  split; [vm_compute; reflexivity|apply flag_concerns].
Qed.

Lemma can_flag_de : can_flag DE.
Proof.
  exists three_concerns, (Tally 0 [] []), (flag c_de (Tally 0 [] [])).
  split; [vm_compute; reflexivity|apply flag_concerns].
Qed.

(** ** Zero-valued mappings *)

Lemma is_zero_value v :
  is_zero v = true → ∃ q, num_value v = Some (XFin q) ∧ (q == 0)%Q.
Proof.
  unfold is_zero. destruct (num_value v) as [[| |q|]|]; try discriminate.
  intros H. exists q. split; [done|]. by apply Qeq_bool_iff.
Qed.

Lemma xlt_zero_l q y : (q == 0)%Q → xlt (XFin q) y = xlt (XFin 0) y.
Proof.
  intros Hq. destruct y; simpl; try reflexivity.
  unfold Qltb. by rewrite Hq.
Qed.

Lemma xlt_zero_r q x : (q == 0)%Q → xlt x (XFin q) = xlt x (XFin 0).
Proof.
  intros Hq. destruct x; simpl; try reflexivity.
  unfold Qltb. by rewrite Hq.
Qed.

(** A zero compares with a number exactly as the integer [0] does. *)
Lemma zero_compare v c :
  is_zero v = true → is_number c →
  py_lt v c = py_lt (PyInt 0) c ∧ py_lt c v = py_lt c (PyInt 0)
  ∧ py_gt v c = py_gt (PyInt 0) c.
Proof.
  intros (q & Hv & Hq)%is_zero_value [y Hc].
  unfold py_lt, py_gt. rewrite Hv, Hc.
  change (num_value (PyInt 0)) with (Some (XFin 0)).
  by rewrite (xlt_zero_l q y Hq), (xlt_zero_r q y Hq).
Qed.

Lemma check_zero g metrics t :
  holds_on (fun v => is_zero v = true) (keys_of g) metrics →
  check g metrics t = check g empty_profile_metrics t.
Proof.
  unfold holds_on. destruct g; simpl; intros H;
    repeat match goal with
           | H : Forall _ (_ :: _) |- _ =>
               let v := fresh "v" in
               let Hk := fresh "Hk" in
               let Hz := fresh "Hz" in
               let Hrest := fresh "Hrest" in
               apply Forall_cons in H as [(v & Hk & Hz) Hrest]
           end;
    unfold check_pe, check_peg, check_pb, check_ev, check_cr, check_de,
      check_roe, check_roa, check_om, check_rev, check_earn, check_div,
      between, above, below, getitem;
    repeat match goal with
           | H : metrics !! ?k = Some ?v, Hz : is_zero ?v = true |- _ =>
               rewrite H;
               change (empty_profile_metrics !! k) with (Some (PyInt 0));
               simpl;
               repeat match goal with
                      | |- context [py_lt (PyInt 0) v] =>
                          rewrite (proj1 (proj2 (zero_compare v (PyInt 0) Hz
                                                   (is_number_int 0))))
                      | |- context [py_lt v ?c] =>
                          rewrite (proj1 (zero_compare v c Hz ltac:(auto)))
                      | |- context [py_gt v ?c] =>
                          rewrite (proj2 (proj2 (zero_compare v c Hz ltac:(auto))))
                      end;
               clear H Hz
           end;
    reflexivity.
Qed.

Lemma run_zero gs metrics t :
  holds_on (fun v => is_zero v = true) (gs ≫= keys_of) metrics →
  run gs metrics t = run gs empty_profile_metrics t.
Proof.
  unfold holds_on. revert t.
  induction gs as [|g gs IH]; simpl; intros t H; [done|].
  apply Forall_app in H as [Hg Hgs].
  rewrite (check_zero g metrics t Hg).
  destruct (check g empty_profile_metrics t); simpl; auto.
Qed.

(** ** The scorer *)

(** C1: on the full-pass mapping of the specification the scorer returns
    score 12 (out of 12), all twelve reasons and an empty list of concerns. *)
Theorem full_pass_scores_twelve :
  evaluate_stock full_pass =
  Ok (12, 12,
      [r_pe; r_peg; r_pb; r_ev; r_cr; r_de; r_roe; r_roa; r_om; r_rev;
       r_earn; r_div],
      []).
Proof. vm_compute. reflexivity. Qed.

(** C2: with P/E = 40, Current Ratio = 0.8 and Debt/Equity = 2.5 the scorer
    returns score 9 and exactly the three concerns of P/E, Current Ratio and
    Debt/Equity; each of these three groups leaves the score as it was. *)
Theorem three_concerns_scores_nine :
  evaluate_stock three_concerns =
  Ok (9, 12,
      [r_peg; r_pb; r_ev; r_roe; r_roa; r_om; r_rev; r_earn; r_div],
      [c_pe; c_cr; c_de])
  ∧ ∀ t, check PE three_concerns t = Ok (flag c_pe t)
         ∧ check CR three_concerns t = Ok (flag c_cr t)
         ∧ check DE three_concerns t = Ok (flag c_de t)
         ∧ score (flag c_pe t) = score t
         ∧ score (flag c_cr t) = score t
         ∧ score (flag c_de t) = score t.
Proof.
  split; [vm_compute; reflexivity|].
  intros t. repeat split.
Qed.

Lemma empty_profile_extracted :
  calculate_metrics (∅ : gmap string pyval) tt tt tt tt = Ok empty_profile_metrics.
Proof.
  unfold empty_profile_metrics, calculate_metrics.
  change (py_truediv (get ∅ "marketCap" (PyInt 0)) 1e9) with (Ok (PyFloat 0)).
  reflexivity.
Qed.

Lemma empty_profile_metrics_zero :
  map_Forall (fun _ v => is_zero v = true) empty_profile_metrics.
Proof.
  unfold empty_profile_metrics, calculate_metrics.
  change (py_truediv (get ∅ "marketCap" (PyInt 0)) 1e9) with (Ok (PyFloat 0)).
  cbn [mbind result_bind].
  repeat (apply map_Forall_insert_2; [reflexivity|]).
  apply map_Forall_empty.
Qed.

(** C3, as stated, fails: the mapping extracted from an empty profile has
    every value equal to 0, and the scorer returns score 1 with one reason
    and one concern on it, not score 0 with empty lists. *)
Lemma zero_mapping_scores_one :
  calculate_metrics (∅ : gmap string pyval) tt tt tt tt = Ok empty_profile_metrics
  ∧ map_Forall (fun _ v => is_zero v = true) empty_profile_metrics
  ∧ evaluate_stock empty_profile_metrics = Ok (1, 12, [r_de], [c_cr])
  ∧ evaluate_stock empty_profile_metrics ≠ Ok (0, 12, [], []).
Proof.
  split; [apply empty_profile_extracted|].
  split; [apply empty_profile_metrics_zero|].
  assert (evaluate_stock empty_profile_metrics = Ok (1, 12, [r_de], [c_cr])) as ->
    by (vm_compute; reflexivity).
  split; [reflexivity|discriminate].
Qed.

(** C3, amended: when every value the scorer reads is 0 (as in the mapping
    extracted from an empty profile), the scorer returns score 1, the single
    reason "Low debt-to-equity ratio (< 1)" and the single concern "Low
    current ratio indicates potential liquidity issues". *)
Theorem zero_mapping_result metrics :
  holds_on (fun v => is_zero v = true) scorer_keys metrics →
  evaluate_stock metrics = Ok (1, 12, [r_de], [c_cr]).
Proof.
  intros H. rewrite evaluate_stock_run, (run_zero groups metrics _ H).
  vm_compute. reflexivity.
Qed.

Lemma zero_mapping_result_witness :
  holds_on (fun v => is_zero v = true) scorer_keys empty_profile_metrics
  ∧ evaluate_stock empty_profile_metrics = Ok (1, 12, [r_de], [c_cr]).
Proof.
  assert (holds_on (fun v => is_zero v = true) scorer_keys
            empty_profile_metrics) as H.
  { repeat (constructor; [exists (PyInt 0); split; reflexivity|]).
    constructor. }
  split; [exact H|exact (zero_mapping_result empty_profile_metrics H)].
Defined.

(** C6: on every mapping that holds a number under each key the scorer
    reads, [evaluate_stock] returns, its score lies in [0, 12] and its
    maximum score is the constant 12. *)
Theorem score_bounded metrics :
  holds_on is_number scorer_keys metrics →
  ∃ s rs cs, evaluate_stock metrics = Ok (s, 12, rs, cs) ∧ 0 ≤ s ≤ 12.
Proof.
  intros H. destruct (evaluate_stock_total metrics H) as (s & rs & cs & He).
  exists s, rs, cs. split; [done|].
  apply evaluate_stock_shape in He as (_ & -> & Hrs & _).
  apply sublist_length in Hrs. change (length all_reasons) with 12%nat in Hrs.
  lia.
Qed.

Lemma full_pass_numeric : holds_on is_number scorer_keys full_pass.
Proof.
  repeat (constructor;
          [eexists; split; [reflexivity|unfold is_number; simpl; eauto]|]).
  constructor.
Defined.

Lemma score_bounded_witness :
  ∃ s rs cs, evaluate_stock full_pass = Ok (s, 12, rs, cs) ∧ 0 ≤ s ≤ 12.
Proof. exact (score_bounded full_pass full_pass_numeric). Defined.

(** C7: the scorer is a function of the keys it reads, so that mappings
    agreeing on them (identical mappings in particular) yield the same score,
    maximum, reasons and concerns; and the reasons and the concerns are
    always selections, in the order of the threshold table, from the table's
    reason and concern texts, which are pairwise distinct. *)
Theorem scorer_deterministic m1 m2 :
  Forall (fun k => m1 !! k = m2 !! k) scorer_keys →
  evaluate_stock m1 = evaluate_stock m2
  ∧ (∀ s mx rs cs, evaluate_stock m1 = Ok (s, mx, rs, cs) →
       rs `sublist_of` all_reasons ∧ cs `sublist_of` all_concerns)
  ∧ NoDup all_reasons ∧ NoDup all_concerns.
Proof.
  intros H. split; [|split].
  - by rewrite !evaluate_stock_run, (run_agree groups m1 m2 _ H).
  - intros s mx rs cs He.
    by apply evaluate_stock_shape in He as (_ & _ & Hrs & Hcs).
  - split; apply (bool_decide_unpack _); vm_compute; reflexivity.
Qed.

Lemma scorer_deterministic_witness :
  evaluate_stock full_pass = evaluate_stock (<["Quick Ratio" := PyInt 1]> full_pass)
  ∧ [r_pe; r_peg; r_pb; r_ev; r_cr; r_de; r_roe; r_roa; r_om; r_rev;
     r_earn; r_div] `sublist_of` all_reasons
  ∧ [] `sublist_of` all_concerns.
Proof.
  assert (Forall (fun k => full_pass !! k
                           = <["Quick Ratio" := PyInt 1]> full_pass !! k)
            scorer_keys) as H.
  { repeat (constructor; [reflexivity|]). constructor. }
  destruct (scorer_deterministic _ _ H) as (Heq & Hord & _).
  split; [exact Heq|].
  apply (Hord 12 12). vm_compute. reflexivity.
Defined.

(** C10: on every mapping that holds a number under each of the thirteen
    keys, the score equals the number of reasons returned; each group either
    adds one point together with its one reason, or leaves both the score and
    the reasons as they were. *)
Theorem score_counts_reasons metrics :
  holds_on is_number scorer_keys metrics →
  (∃ s rs cs, evaluate_stock metrics = Ok (s, 12, rs, cs)
              ∧ s = Z.of_nat (length rs))
  ∧ ∀ g t t', check g metrics t = Ok t' →
      (score t' = score t + 1 ∧ reasons t' = (reasons t ++ [reason_of g])%list)
      ∨ (score t' = score t ∧ reasons t' = reasons t).
Proof.
  intros H. split.
  - destruct (evaluate_stock_total metrics H) as (s & rs & cs & He).
    exists s, rs, cs. split; [done|].
    by apply evaluate_stock_shape in He as (_ & -> & _).
  - intros g t t' Hg.
    apply check_inv in Hg as [->|[->|(c & _ & ->)]]; simpl; auto.
Qed.

Lemma score_counts_reasons_witness :
  ∃ s rs cs, evaluate_stock full_pass = Ok (s, 12, rs, cs)
             ∧ s = Z.of_nat (length rs).
Proof. exact (proj1 (score_counts_reasons full_pass full_pass_numeric)). Defined.

(** C5, as stated, fails: Debt/Equity is a third group with a concern
    threshold.  With Debt/Equity = 2.5 its test appends "High debt levels
    relative to equity". *)
Lemma debt_equity_flags :
  check DE three_concerns (Tally 0 [] []) = Ok (Tally 0 [] [c_de])
  ∧ can_flag DE ∧ DE ≠ PE ∧ DE ≠ CR.
Proof.
  split; [vm_compute; reflexivity|].
  split; [apply can_flag_de|]. split; discriminate.
Qed.

(** C5, amended: exactly three predicate groups, P/E Ratio, Current Ratio
    and Debt/Equity, have a concern threshold besides their reason threshold;
    in each of the three the two thresholds are disjoint (no value satisfies
    both), and no group appends a reason and a concern in the same run. *)
Theorem concern_groups :
  (∀ g, can_flag g ↔ g = PE ∨ g = CR ∨ g = DE)
  ∧ (∀ metrics,
       ¬ (between metrics "P/E Ratio" (PyInt 25) = Ok true
          ∧ above metrics "P/E Ratio" (PyInt 35) = Ok true))
  ∧ (∀ metrics,
       ¬ (above metrics "Current Ratio" (PyFloat 1.5) = Ok true
          ∧ below metrics "Current Ratio" (PyInt 1) = Ok true))
  ∧ (∀ metrics,
       ¬ (below metrics "Debt/Equity" (PyInt 1) = Ok true
          ∧ above metrics "Debt/Equity" (PyInt 2) = Ok true))
  ∧ (∀ g metrics t t', check g metrics t = Ok t' →
       ¬ (reasons t' ≠ reasons t ∧ concerns t' ≠ concerns t)).
Proof.
  split.
  { intros g. split; [apply can_flag_inv|].
    intros [->|[->| ->]];
      [apply can_flag_pe|apply can_flag_cr|apply can_flag_de]. }
  split; [apply pe_thresholds_disjoint|].
  split; [apply cr_thresholds_disjoint|].
  split; [apply de_thresholds_disjoint|].
  intros g metrics t t' Hg [Hr Hc].
  apply check_inv in Hg as [->|[->|(c & _ & ->)]]; simpl in *; congruence.
Qed.

(** ** The extractor *)

(** ** The extractor *)

Lemma Ok_inj {A} (a b : A) : Ok a = Ok b → a = b.
Proof. by intros [=]. Qed.

Lemma get_absent (info : gmap string pyval) k dflt :
  info !! k = None → get info k dflt = dflt.
Proof. unfold get. by intros ->. Qed.

(** Absent provider fields do default to 0, for every metric. *)
Lemma absent_field_defaults (info : gmap string pyval) name field metrics :
  (name, field) ∈ metric_fields →
  info !! field = None →
  calculate_metrics info tt tt tt tt = Ok metrics →
  ∃ v, metrics !! name = Some v ∧ is_zero v = true.
Proof.
  intros Hin Habs. unfold calculate_metrics.
  destruct (py_truediv (get info "marketCap" (PyInt 0)) 1e9) as [cap|] eqn:Hcap;
    [|done].
  cbn [mbind result_bind].
  intros <-%Ok_inj.
  unfold metric_fields in Hin.
  repeat (apply elem_of_cons in Hin as [[= -> ->]|Hin]);
    [..|by apply elem_of_nil in Hin].
  all: rewrite ?(get_absent info _ _ Habs) in *.
  all: try (progress change (py_truediv (PyInt 0) 1e9) with (Ok (PyFloat 0)) in Hcap;
            injection Hcap as <-).
  all: rewrite ?lookup_insert_ne by discriminate.
  all: rewrite lookup_insert_eq.
  all: eexists; split; [reflexivity|reflexivity].
Qed.

(** C4: a provider field that is present with a null value is passed
    through as [None] instead of 0: the P/E entry becomes [None] (and the
    scorer then raises on it), a null market capitalisation makes the
    extractor itself raise, whereas the two dividend entries do fall back
    to 0. *)
Theorem null_field_not_defaulted :
  (∃ metrics,
     calculate_metrics null_pe_profile tt tt tt tt = Ok metrics
     ∧ metrics !! "P/E Ratio" = Some PyNone
     ∧ evaluate_stock metrics =
       Raise (TypeError
                "'<' not supported between instances of 'int' and 'NoneType'"))
  ∧ calculate_metrics null_cap_profile tt tt tt tt =
    Raise (TypeError "unsupported operand type(s) for /: 'NoneType' and 'float'")
  ∧ (∃ metrics,
       calculate_metrics null_yield_profile tt tt tt tt = Ok metrics
       ∧ metrics !! "Dividend Yield" = Some (PyInt 0)).
Proof.
  split; [|split].
  - unfold calculate_metrics.
    change (py_truediv (get null_pe_profile "marketCap" (PyInt 0)) 1e9)
      with (Ok (PyFloat 0)).
    cbn [mbind result_bind]. eexists. split; [reflexivity|].
    split; [reflexivity|]. vm_compute. reflexivity.
  - vm_compute. reflexivity.
  - unfold calculate_metrics.
    change (py_truediv (get null_yield_profile "marketCap" (PyInt 0)) 1e9)
      with (Ok (PyFloat 0)).
    cbn [mbind result_bind]. eexists. split; reflexivity.
Qed.

(** ** Data acquisition *)

Section Acquisition.
Context {Sheet Figure : Type}.
Variable yf_Ticker : string → result (ticker_obj Sheet).
Variable py_str : pyval → string.
Variable format_2f : pyval → result string.
Variable plot_technical_analysis : frame → result Figure.

(** C8: when the provider answers with an empty history, [get_stock_data]
    raises the "No historical data found" error: no indicator is derived
    and no statement is fetched (whatever these would have produced), the
    error is shown and raised again to the caller, and the caller
    [analyze] reports it without extracting metrics or drawing anything. *)
Theorem no_history_fails_fast ticker stock info hist
    (page : list (widget Figure)) :
  yf_Ticker ticker = Ok stock →
  t_info stock = Ok info →
  t_history stock "1y" = Ok hist →
  empty hist = true →
  get_stock_data yf_Ticker ticker page =
    (Raise (ValueError ("No historical data found for " +:+ ticker)),
     (page ++ [StError ("Error fetching data for " +:+ ticker +:+ ": "
                        +:+ "No historical data found for " +:+ ticker)])%list)
  ∧ analyze yf_Ticker py_str format_2f plot_technical_analysis ticker page =
    (Ok tt,
     (page ++ [StError ("Error fetching data for " +:+ ticker +:+ ": "
                        +:+ "No historical data found for " +:+ ticker);
               StError ("Error analyzing " +:+ ticker +:+ ". Please try again.");
               StError ("Error details: "
                        +:+ "No historical data found for " +:+ ticker)])%list).
Proof.
  intros Hstock Hinfo Hhist Hempty.
  assert (get_stock_data yf_Ticker ticker page =
    (Raise (ValueError ("No historical data found for " +:+ ticker)),
     (page ++ [StError ("Error fetching data for " +:+ ticker +:+ ": "
                        +:+ "No historical data found for " +:+ ticker)])%list))
    as Hget.
  { unfold get_stock_data, try_except, mbind, action_bind, lift.
    rewrite Hstock, Hinfo, Hhist, Hempty. reflexivity. }
  split; [exact Hget|].
  unfold analyze, try_except, mbind at 1, action_bind.
  rewrite Hget. unfold st_put, mbind, action_bind; simpl.
  rewrite <- !app_assoc. reflexivity.
Qed.
End Acquisition.

Lemma no_history_fails_fast_witness :
  calculate_technical_indicators {| index := []; columns := ∅ |} =
    Raise (KeyError "Close")
  ∧ get_stock_data (Figure := unit) no_history_provider "ZZZZ" [] =
    (Raise (ValueError "No historical data found for ZZZZ"),
     [StError "Error fetching data for ZZZZ: No historical data found for ZZZZ"])
  ∧ analyze (Figure := unit) no_history_provider (fun _ => "")
      (fun _ => Ok "") (fun _ => Ok tt) "ZZZZ" [] =
    (Ok tt,
     [StError "Error fetching data for ZZZZ: No historical data found for ZZZZ";
      StError "Error analyzing ZZZZ. Please try again.";
      StError "Error details: No historical data found for ZZZZ"]).
Proof.
  split; [reflexivity|].
  exact (no_history_fails_fast (Figure := unit) no_history_provider
           (fun _ => "") (fun _ => Ok "") (fun _ => Ok tt) "ZZZZ"
           _ ∅ {| index := []; columns := ∅ |} []
           eq_refl eq_refl eq_refl eq_refl).
Defined.

(** ** Relative strength *)

(** With no loss and some gain in the window the formula saturates at
    exactly 100: the quotient is [+inf] and [100 / inf] is 0. *)
Lemma rsi_no_loss gain : (0 <? gain)%float = true → rsi_value gain 0 = 100%float.
Proof.
  intros Hpos. apply Prim2SF_inj. unfold rsi_value.
  rewrite ltb_spec in Hpos.
  rewrite sub_spec, div_spec, add_spec, div_spec.
  change (Prim2SF 0) with (S754_zero false) in *.
  destruct (Prim2SF gain) as [s|[]| |[] m e]; try discriminate;
    vm_compute; reflexivity.
Qed.

(** C9: on a history whose closes never change, the average gain and the
    average loss are both zero, the quotient is 0/0, and every entry of the
    RSI column is NaN, also after the back-fill: no saturation value is
    produced.  (With a positive average gain the same formula gives 100.) *)
Theorem flat_history_rsi_undefined :
  (calculate_technical_indicators flat_history ≫= fun h => column h "RSI")
    = Ok (replicate 252 nan)
  ∧ rsi_value 0 0 = nan
  ∧ rsi_value 0.5 0 = 100%float.
Proof.
  split; [vm_compute; reflexivity|]. split; vm_compute; reflexivity.
Qed.
(** ** How the scorer fails *)

Lemma getitem_raise (d : gmap string pyval) k e :
  getitem d k = Raise e → d !! k = None ∧ e = KeyError k.
Proof. unfold getitem. destruct (d !! k); [done|]. by intros [= <-]. Qed.

Lemma py_lt_raise a b e : py_lt a b = Raise e → ∃ msg, e = TypeError msg.
Proof.
  unfold py_lt, unorderable.
  destruct (num_value a), (num_value b), a, b; intros [= <-]; eauto.
Qed.

Lemma py_gt_raise a b e : py_gt a b = Raise e → ∃ msg, e = TypeError msg.
Proof.
  unfold py_gt, unorderable.
  destruct (num_value a), (num_value b), a, b; intros [= <-]; eauto.
Qed.

Lemma key_or_type_mono metrics ks ks' e :
  ks ⊆ ks' → key_or_type metrics ks e → key_or_type metrics ks' e.
Proof. intros Hs [(k & Hk & ?)|?]; [left|right]; eauto. Qed.

Lemma between_raise metrics k hi e :
  between metrics k hi = Raise e → key_or_type metrics [k] e.
Proof.
  unfold between. destruct (getitem metrics k) as [v|e'] eqn:Hk; simpl.
  - unfold py_and. destruct (py_lt (PyInt 0) v) as [[]|] eqn:H0; simpl.
    + intros H%py_lt_raise. by right.
    + done.
    + intros [= <-]. apply py_lt_raise in H0. by right.
  - intros [= <-]. apply getitem_raise in Hk as [? ->].
    left. exists k. split; [apply list_elem_of_singleton|]; done.
Qed.

Lemma above_raise metrics k lo e :
  above metrics k lo = Raise e → key_or_type metrics [k] e.
Proof.
  unfold above. destruct (getitem metrics k) as [v|e'] eqn:Hk; simpl.
  - intros H%py_gt_raise. by right.
  - intros [= <-]. apply getitem_raise in Hk as [? ->].
    left. exists k. split; [apply list_elem_of_singleton|]; done.
Qed.

Lemma below_raise metrics k hi e :
  below metrics k hi = Raise e → key_or_type metrics [k] e.
Proof.
  unfold below. destruct (getitem metrics k) as [v|e'] eqn:Hk; simpl.
  - intros H%py_lt_raise. by right.
  - intros [= <-]. apply getitem_raise in Hk as [? ->].
    left. exists k. split; [apply list_elem_of_singleton|]; done.
Qed.

Lemma when_raise p r t e : when p r t = Raise e → p = Raise e.
Proof. unfold when. destruct p; simpl; congruence. Qed.

Lemma when_elif_raise p r q c t e :
  when_elif p r q c t = Raise e → p = Raise e ∨ q = Raise e.
Proof.
  unfold when_elif. destruct p as [[]|]; simpl.
  - done.
  - destruct q as [[]|]; simpl; intros [= <-]. by right.
  - intros [= <-]. by left.
Qed.

Lemma check_raise g metrics t e :
  check g metrics t = Raise e → key_or_type metrics (keys_of g) e.
Proof.
  destruct g; simpl; intros H.
  12: {
    apply when_raise in H. unfold py_and in H.
    destruct (above metrics "Dividend Yield" (PyFloat 0.02)) as [[]|] eqn:Hy;
      simpl in H; [|done|].
    - apply below_raise in H. eapply key_or_type_mono; [|done]. set_solver.
    - injection H as <-. apply above_raise in Hy.
      eapply key_or_type_mono; [|done]. set_solver. }
  all: first [ apply when_raise in H
             | apply when_elif_raise in H as [H|H] ];
    first [ by apply between_raise in H
          | by apply above_raise in H
          | by apply below_raise in H ].
Qed.

Lemma run_raise gs metrics t e :
  run gs metrics t = Raise e → key_or_type metrics (gs ≫= keys_of) e.
Proof.
  revert t. induction gs as [|g gs IH]; simpl; intros t H; [done|].
  destruct (check g metrics t) as [t1|e1] eqn:Hg; simpl in H.
  - apply IH in H. eapply key_or_type_mono; [|done]. set_solver.
  - injection H as <-. apply check_raise in Hg.
    eapply key_or_type_mono; [|done]. set_solver.
Qed.

(** X1: [evaluate_stock] raises nothing but a [KeyError] naming one of its
    thirteen keys that the mapping lacks, or a [TypeError] from comparing a
    value that is not a number. *)
Theorem scorer_raises_key_or_type metrics e :
  evaluate_stock metrics = Raise e →
  (∃ k, k ∈ scorer_keys ∧ metrics !! k = None ∧ e = KeyError k)
  ∨ ∃ msg, e = TypeError msg.
Proof.
  rewrite evaluate_stock_run.
  destruct (run groups metrics _) as [t|e1] eqn:Hrun; simpl; [done|].
  intros [= <-]. by apply run_raise in Hrun.
Qed.

Lemma scorer_raises_key_or_type_witness :
  (∃ k, k ∈ scorer_keys ∧ (∅ : gmap string pyval) !! k = None
        ∧ KeyError "P/E Ratio" = KeyError k)
  ∨ ∃ msg, KeyError "P/E Ratio" = TypeError msg.
Proof.
  apply (scorer_raises_key_or_type ∅ (KeyError "P/E Ratio")).
  vm_compute. reflexivity.
Defined.

(** ** When the scorer returns *)

Lemma py_lt_ok_number_r a b r :
  is_number a → py_lt a b = Ok r → is_number b.
Proof.
  intros [x Hx]. unfold py_lt, is_number. rewrite Hx.
  destruct (num_value b); [eauto|]. by destruct a, b.
Qed.

Lemma py_lt_ok_number_l a b r :
  is_number b → py_lt a b = Ok r → is_number a.
Proof.
  intros [y Hy]. unfold py_lt, is_number. rewrite Hy.
  destruct (num_value a); [eauto|]. by destruct a, b.
Qed.

Lemma py_gt_ok_number_l a b r :
  is_number b → py_gt a b = Ok r → is_number a.
Proof.
  intros [y Hy]. unfold py_gt, is_number. rewrite Hy.
  destruct (num_value a); [eauto|]. by destruct a, b.
Qed.

Lemma between_ok metrics k hi r :
  between metrics k hi = Ok r → holds_on is_number [k] metrics.
Proof.
  unfold between, getitem, holds_on.
  destruct (metrics !! k) as [v|] eqn:Hk; simpl; [|done].
  unfold py_and. destruct (py_lt (PyInt 0) v) as [b|] eqn:H0; simpl; [|done].
  intros _. apply Forall_singleton. exists v. split; [done|].
  eapply (py_lt_ok_number_r (PyInt 0) v); [apply is_number_int|exact H0].
Qed.

Lemma above_ok metrics k lo r :
  is_number lo → above metrics k lo = Ok r → holds_on is_number [k] metrics.
Proof.
  unfold above, getitem, holds_on. intros Hlo.
  destruct (metrics !! k) as [v|] eqn:Hk; simpl; [|done].
  intros H. apply Forall_singleton. exists v. split; [done|].
  by eapply py_gt_ok_number_l.
Qed.

Lemma below_ok metrics k hi r :
  is_number hi → below metrics k hi = Ok r → holds_on is_number [k] metrics.
Proof.
  unfold below, getitem, holds_on. intros Hhi.
  destruct (metrics !! k) as [v|] eqn:Hk; simpl; [|done].
  intros H. apply Forall_singleton. exists v. split; [done|].
  by eapply py_lt_ok_number_l.
Qed.

Lemma when_ok p r t t' : when p r t = Ok t' → ∃ b, p = Ok b.
Proof. unfold when. destruct p; simpl; [eauto|done]. Qed.

Lemma when_elif_ok p r q c t t' : when_elif p r q c t = Ok t' → ∃ b, p = Ok b.
Proof. unfold when_elif. destruct p; simpl; [eauto|done]. Qed.

Lemma check_ok g metrics t t' :
  check g metrics t = Ok t' → holds_on is_number (first_keys_of g) metrics.
Proof.
  destruct g; simpl; intros H.
  12: {
    apply when_ok in H as [b H]. unfold py_and in H.
    destruct (above metrics "Dividend Yield" (PyFloat 0.02)) as [b'|] eqn:Hy;
      [|done].
    eapply above_ok; [apply is_number_float|exact Hy]. }
  all: first [ apply when_ok in H as [b H] | apply when_elif_ok in H as [b H] ];
    first [ eapply between_ok; exact H
          | eapply above_ok; [|exact H];
            first [apply is_number_int|apply is_number_float]
          | eapply below_ok; [|exact H];
            first [apply is_number_int|apply is_number_float] ].
Qed.

Lemma run_ok gs metrics t t' :
  run gs metrics t = Ok t' →
  holds_on is_number (gs ≫= first_keys_of) metrics.
Proof.
  unfold holds_on. revert t.
  induction gs as [|g gs IH]; simpl; intros t H; [constructor|].
  destruct (check g metrics t) as [t1|] eqn:Hg; simpl in H; [|done].
  apply Forall_app. split; [by eapply check_ok|by eapply IH].
Qed.

(** X2: [evaluate_stock] returns only if the mapping holds a number under
    each of the twelve keys it always reads (every key but the payout
    ratio): a missing, null or textual value never goes unnoticed. *)
Theorem scorer_returns_on_numbers metrics res :
  evaluate_stock metrics = Ok res → holds_on is_number always_read metrics.
Proof.
  rewrite evaluate_stock_run.
  destruct (run groups metrics _) as [t|] eqn:Hrun; simpl; [|done].
  intros _. by eapply run_ok.
Qed.

Lemma scorer_returns_on_numbers_witness :
  holds_on is_number always_read full_pass.
Proof.
  eapply (scorer_returns_on_numbers full_pass). vm_compute. reflexivity.
Defined.

(** ** The payout ratio is read last, and only if needed *)

Lemma check_delete_payout g metrics t :
  g ≠ DIV →
  check g (delete "Payout Ratio" metrics) t = check g metrics t.
Proof.
  intros Hg. apply check_agree.
  destruct g; try done; simpl; apply Forall_singleton;
    by rewrite lookup_delete_ne.
Qed.

(** X3: when the dividend yield is not above 0.02 the payout ratio is never
    looked up: the scorer gives the same result on the mapping with the
    "Payout Ratio" entry removed, and raises no [KeyError] for it. *)
Theorem payout_ratio_short_circuit metrics y :
  metrics !! "Dividend Yield" = Some y →
  py_gt y (PyFloat 0.02) = Ok false →
  evaluate_stock (delete "Payout Ratio" metrics) = evaluate_stock metrics.
Proof.
  intros Hy Hgt. rewrite !evaluate_stock_run. f_equal.
  unfold groups.
  assert (∀ t, check DIV (delete "Payout Ratio" metrics) t
               = check DIV metrics t) as Hdiv.
  { intros t. simpl. unfold check_div, above, below, getitem.
    rewrite lookup_delete_ne by done. rewrite Hy. simpl. by rewrite Hgt. }
  generalize (Tally 0 [] []).
  change [PE; PEG; PB; EV; CR; DE; ROE; ROA; OM; REV; EARN; DIV]
    with ([PE; PEG; PB; EV; CR; DE; ROE; ROA; OM; REV; EARN] ++ [DIV])%list.
  assert (Forall (fun g => g ≠ DIV)
            [PE; PEG; PB; EV; CR; DE; ROE; ROA; OM; REV; EARN]) as Hne
    by (repeat constructor; discriminate).
  induction Hne as [|g gs Hg _ IH]; intros t; simpl.
  - by rewrite Hdiv.
  - rewrite (check_delete_payout g metrics t Hg).
    destruct (check g metrics t); simpl; [apply IH|done].
Qed.

Lemma payout_ratio_short_circuit_witness :
  evaluate_stock (delete "Payout Ratio" empty_profile_metrics)
  = evaluate_stock empty_profile_metrics.
Proof.
  apply (payout_ratio_short_circuit empty_profile_metrics (PyInt 0));
    reflexivity.
Defined.

(** ** How many messages the scorer returns *)

Lemma run_messages gs metrics t t' :
  run gs metrics t = Ok t' →
  (length (reasons t') + length (concerns t')
   ≤ length (reasons t) + length (concerns t) + length gs)%nat.
Proof.
  revert t. induction gs as [|g gs IH]; simpl; intros t H.
  - injection H as <-. lia.
  - destruct (check g metrics t) as [t1|] eqn:Hg; simpl in H; [|done].
    apply IH in H.
    apply check_inv in Hg as [->|[->|(c & _ & ->)]]; simpl in H;
      rewrite ?length_app in H; simpl in H; lia.
Qed.

(** X4: each of the twelve groups contributes at most one message, a reason
    or a concern: the reasons and concerns returned number at most twelve
    together, the concerns at most three, and a score of 12 comes with no
    concern. *)
Theorem scorer_messages_bounded metrics s mx rs cs :
  evaluate_stock metrics = Ok (s, mx, rs, cs) →
  (length rs + length cs ≤ 12)%nat ∧ (length cs ≤ 3)%nat
  ∧ (s = 12 → cs = []).
Proof.
  intros He.
  assert (length rs + length cs ≤ 12)%nat as Hsum.
  { rewrite evaluate_stock_run in He.
    destruct (run groups metrics _) as [t|] eqn:Hrun; simpl in He; [|done].
    injection He as <- <- <- <-. apply run_messages in Hrun. simpl in Hrun. lia. }
  apply evaluate_stock_shape in He as (_ & -> & _ & Hcs).
  apply sublist_length in Hcs. change (length all_concerns) with 3%nat in Hcs.
  split; [done|]. split; [done|].
  intros H12. destruct cs; [done|]. simpl in Hsum. lia.
Qed.

Lemma scorer_messages_bounded_witness :
  (9 + 3 ≤ 12)%nat ∧ (3 ≤ 3)%nat ∧ (9 = 12 → [c_pe; c_cr; c_de] = []).
Proof.
  apply (scorer_messages_bounded three_concerns 9 12
           [r_peg; r_pb; r_ev; r_roe; r_roa; r_om; r_rev; r_earn; r_div]
           [c_pe; c_cr; c_de]).
  vm_compute. reflexivity.
Defined.

(** ** Unordered values *)

Lemma xlt_nan_l y : xlt XNaN y = false.
Proof. by destruct y. Qed.

Lemma xlt_nan_r x : xlt x XNaN = false.
Proof. by destruct x. Qed.

Lemma nan_compare v c :
  is_nan_value v → is_number c →
  py_lt v c = Ok false ∧ py_lt c v = Ok false ∧ py_gt v c = Ok false.
Proof.
  unfold is_nan_value. intros Hv [y Hc]. unfold py_lt, py_gt.
  by rewrite Hv, Hc, xlt_nan_l, xlt_nan_r.
Qed.

Lemma check_nan g metrics t :
  holds_on is_nan_value (first_keys_of g) metrics → check g metrics t = Ok t.
Proof.
  unfold holds_on. destruct g; simpl; intros H;
    apply Forall_singleton in H as (v & Hk & Hv);
    unfold check_pe, check_peg, check_pb, check_ev, check_cr, check_de,
      check_roe, check_roa, check_om, check_rev, check_earn, check_div,
      between, above, below, getitem;
    rewrite Hk; simpl;
    repeat match goal with
           | |- context [py_lt (PyInt 0) v] =>
               rewrite (proj1 (proj2 (nan_compare v (PyInt 0) Hv
                                        (is_number_int 0))))
           | |- context [py_lt v ?c] =>
               rewrite (proj1 (nan_compare v c Hv ltac:(first [apply is_number_int|apply is_number_float])))
           | |- context [py_gt v ?c] =>
               rewrite (proj2 (proj2 (nan_compare v c Hv ltac:(first [apply is_number_int|apply is_number_float]))))
           end;
    reflexivity.
Qed.

(** X5: a group whose value is NaN neither awards its point nor raises its
    concern (every comparison with NaN is false); with NaN under every key
    read the result is score 0 with no reason and no concern, unlike for
    zeros. *)
Theorem nan_is_neutral metrics :
  (∀ g t, holds_on is_nan_value (first_keys_of g) metrics →
          check g metrics t = Ok t)
  ∧ (holds_on is_nan_value always_read metrics →
     evaluate_stock metrics = Ok (0, 12, [], [])).
Proof.
  split; [intros g t; apply check_nan|].
  intros H. rewrite evaluate_stock_run.
  assert (∀ gs t, holds_on is_nan_value (gs ≫= first_keys_of) metrics →
                  run gs metrics t = Ok t) as Hrun.
  { unfold holds_on. induction gs as [|g gs IH]; simpl; intros t Hgs; [done|].
    apply Forall_app in Hgs as [Hg Hgs].
    rewrite (check_nan g metrics t Hg). simpl. by apply IH. }
  by rewrite (Hrun groups _ H).
Qed.

Lemma nan_is_neutral_witness :
  evaluate_stock nan_metrics = Ok (0, 12, [], []).
Proof.
  apply (proj2 (nan_is_neutral nan_metrics)).
  repeat (constructor; [exists (PyFloat nan); split; reflexivity|]).
  constructor.
Defined.

(** ** What the extractor stores *)

Lemma extracted_plain (info : gmap string pyval) name field metrics :
  (name, field) ∈ plain_fields →
  calculate_metrics info tt tt tt tt = Ok metrics →
  metrics !! name = Some (default (PyInt 0) (info !! field)).
Proof.
  intros Hin. unfold calculate_metrics.
  destruct (py_truediv (get info "marketCap" (PyInt 0)) 1e9) as [cap|];
    [|done].
  cbn [mbind result_bind]. intros <-%Ok_inj.
  vm_compute in Hin.
  repeat (apply elem_of_cons in Hin as [[= -> ->]|Hin]);
    [..|by apply elem_of_nil in Hin].
  all: rewrite ?lookup_insert_ne by discriminate.
  all: apply lookup_insert_eq.
Qed.

Lemma extracted_dividend (info : gmap string pyval) name field metrics :
  (name, field) ∈ dividend_fields →
  calculate_metrics info tt tt tt tt = Ok metrics →
  metrics !! name =
  Some (if truthy (default PyNone (info !! field))
        then default (PyInt 0) (info !! field) else PyInt 0).
Proof.
  intros Hin. unfold calculate_metrics.
  destruct (py_truediv (get info "marketCap" (PyInt 0)) 1e9) as [cap|];
    [|done].
  cbn [mbind result_bind]. intros <-%Ok_inj.
  unfold dividend_fields in Hin.
  repeat (apply elem_of_cons in Hin as [[= -> ->]|Hin]);
    [..|by apply elem_of_nil in Hin].
  all: rewrite ?lookup_insert_ne by discriminate.
  all: apply lookup_insert_eq.
Qed.

Lemma scorer_keys_extracted :
  Forall (fun k => k ∈ (list_to_set metric_fields.*1 : gset string)) scorer_keys.
Proof.
  repeat (apply Forall_cons_2;
          [apply elem_of_list_to_set; by apply (bool_decide_unpack _); vm_compute|]).
  apply Forall_nil_2.
Qed.

Lemma extracted_dom (info : gmap string pyval) metrics :
  calculate_metrics info tt tt tt tt = Ok metrics →
  dom metrics = list_to_set metric_fields.*1.
Proof.
  unfold calculate_metrics.
  destruct (py_truediv (get info "marketCap" (PyInt 0)) 1e9) as [cap|];
    [|done].
  cbn [mbind result_bind]. intros <-%Ok_inj.
  rewrite !dom_insert_L, dom_empty_L. simpl. set_solver.
Qed.

(** X6: a successful extraction has exactly the twenty-two metric names as
    keys, whatever the profile holds; in particular every key the scorer
    reads is there. *)
Theorem extractor_keys (info : gmap string pyval) metrics :
  calculate_metrics info tt tt tt tt = Ok metrics →
  dom metrics = list_to_set metric_fields.*1
  ∧ Forall (fun k => is_Some (metrics !! k)) scorer_keys.
Proof.
  intros He. pose proof (extracted_dom info metrics He) as Hdom.
  split; [done|].
  apply Forall_forall. intros k Hk. apply elem_of_dom. rewrite Hdom.
  revert k Hk. apply Forall_forall, scorer_keys_extracted.
Qed.

Lemma extractor_keys_witness :
  dom empty_profile_metrics = list_to_set metric_fields.*1
  ∧ Forall (fun k => is_Some (empty_profile_metrics !! k)) scorer_keys.
Proof. exact (extractor_keys ∅ _ empty_profile_extracted). Defined.

(** X7: for the nineteen plain entries the extractor stores the provider's
    value as it is when the field is present (also when it is null or a
    text), and the integer 0 when it is absent. *)
Theorem plain_field_copied (info : gmap string pyval) name field metrics :
  (name, field) ∈ plain_fields →
  calculate_metrics info tt tt tt tt = Ok metrics →
  match info !! field with
  | Some v => metrics !! name = Some v
  | None => metrics !! name = Some (PyInt 0)
  end.
Proof.
  intros Hin He. rewrite (extracted_plain info name field metrics Hin He).
  by destruct (info !! field).
Qed.

Lemma null_pe_extracted :
  calculate_metrics null_pe_profile tt tt tt tt = Ok null_pe_metrics.
Proof.
  unfold null_pe_metrics, calculate_metrics.
  change (py_truediv (get null_pe_profile "marketCap" (PyInt 0)) 1e9)
    with (Ok (PyFloat 0)).
  reflexivity.
Qed.

Lemma trailing_pe_plain : ("P/E Ratio", "trailingPE") ∈ plain_fields.
Proof. vm_compute. do 3 right. left. Defined.

Lemma plain_field_copied_witness :
  null_pe_metrics !! "P/E Ratio" = Some PyNone.
Proof.
  exact (plain_field_copied null_pe_profile "P/E Ratio" "trailingPE" _
           trailing_pe_plain null_pe_extracted).
Defined.

Lemma truthy_not_none p : truthy p = true → p ≠ PyNone.
Proof. by destruct p. Qed.

(** X8: the two dividend entries are never null: each holds the provider's
    value when that value is truthy, and the integer 0 when the field is
    absent, null, zero or an empty text. *)
Theorem dividend_field_guarded (info : gmap string pyval) name field metrics :
  (name, field) ∈ dividend_fields →
  calculate_metrics info tt tt tt tt = Ok metrics →
  ∃ v, metrics !! name = Some v
       ∧ v ≠ PyNone
       ∧ match info !! field with
         | Some p => v = if truthy p then p else PyInt 0
         | None => v = PyInt 0
         end.
Proof.
  intros Hin He. rewrite (extracted_dividend info name field metrics Hin He).
  eexists. split; [reflexivity|].
  destruct (info !! field) as [p|]; simpl; [|done].
  destruct (truthy p) eqn:Hp; [|done].
  split; [by apply truthy_not_none|done].
Qed.

Lemma yield_guarded : ("Dividend Yield", "dividendYield") ∈ dividend_fields.
Proof. left. Defined.

Lemma null_yield_extracted :
  calculate_metrics null_yield_profile tt tt tt tt = Ok null_yield_metrics.
Proof.
  unfold null_yield_metrics, calculate_metrics.
  change (py_truediv (get null_yield_profile "marketCap" (PyInt 0)) 1e9)
    with (Ok (PyFloat 0)).
  reflexivity.
Qed.

Lemma dividend_field_guarded_witness :
  ∃ v, null_yield_metrics !! "Dividend Yield" = Some v
       ∧ v ≠ PyNone
       ∧ match null_yield_profile !! "dividendYield" with
         | Some p => v = if truthy p then p else PyInt 0
         | None => v = PyInt 0
         end.
Proof.
  exact (dividend_field_guarded null_yield_profile _ _ _
           yield_guarded null_yield_extracted).
Defined.

(** ** When the extractor fails *)

Lemma calculate_metrics_cases (info : gmap string pyval) :
  (∃ cap metrics,
     py_truediv (get info "marketCap" (PyInt 0)) 1e9 = Ok cap
     ∧ calculate_metrics info tt tt tt tt = Ok metrics)
  ∨ (∃ e, py_truediv (get info "marketCap" (PyInt 0)) 1e9 = Raise e
          ∧ calculate_metrics info tt tt tt tt = Raise e).
Proof.
  unfold calculate_metrics.
  destruct (py_truediv (get info "marketCap" (PyInt 0)) 1e9) as [cap|e];
    cbn [mbind result_bind]; eauto.
Qed.

Lemma py_truediv_int z :
  (∃ f, py_truediv (PyInt z) 1e9 = Ok (PyFloat f))
  ∨ py_truediv (PyInt z) 1e9 =
    Raise (OverflowError "int too large to convert to float").
Proof.
  unfold py_truediv, float_of_int.
  destruct (is_infinity _); cbn [mbind result_bind]; [by right|].
  left. eexists. reflexivity.
Qed.

(** X9: the extractor can only fail on the market capitalisation: it
    returns when that field is absent or a float, raises [TypeError] when it
    is null or a text, and for an integer either returns or raises
    [OverflowError]. *)
Theorem extractor_fails_only_on_market_cap (info : gmap string pyval) :
  match info !! "marketCap" with
  | None | Some (PyFloat _) =>
      ∃ metrics, calculate_metrics info tt tt tt tt = Ok metrics
  | Some PyNone =>
      calculate_metrics info tt tt tt tt =
      Raise (TypeError
               "unsupported operand type(s) for /: 'NoneType' and 'float'")
  | Some (PyStr _) =>
      calculate_metrics info tt tt tt tt =
      Raise (TypeError "unsupported operand type(s) for /: 'str' and 'float'")
  | Some (PyInt z) =>
      (∃ metrics, calculate_metrics info tt tt tt tt = Ok metrics)
      ∨ calculate_metrics info tt tt tt tt =
        Raise (OverflowError "int too large to convert to float")
  end.
Proof.
  destruct (calculate_metrics_cases info) as [(cap & m & Hc & ->)|(e & Hc & ->)];
    revert Hc; unfold get;
    destruct (info !! "marketCap") as [[|z|f|s]|]; cbn [default from_option id];
    eauto; try discriminate.
  - intros [= <-]. reflexivity.
  - intros Hc. destruct (py_truediv_int z) as [[f Hf]|Hf];
      rewrite Hf in Hc; [discriminate|]. injection Hc as <-. by right.
  - intros [= <-]. reflexivity.
Qed.

(** ** Extraction followed by scoring *)



(** X10: on a mapping the extractor returned, the scorer never raises
    [KeyError]: all it can still raise is a [TypeError], for a value that is
    not a number. *)
Theorem extracted_never_key_error (info : gmap string pyval) metrics e :
  calculate_metrics info tt tt tt tt = Ok metrics →
  evaluate_stock metrics = Raise e →
  ∃ msg, e = TypeError msg.
Proof.
  intros He Hr. rewrite evaluate_stock_run in Hr.
  destruct (run groups metrics _) as [t|e1] eqn:Hrun; simpl in Hr; [done|].
  injection Hr as <-. apply run_raise in Hrun as [(k & Hk & Hnone & _)|?];
    [|done].
  exfalso. apply extracted_dom in He.
  assert (k ∈ dom metrics) as Hin.
  { rewrite He. clear Hnone. revert k Hk.
    apply Forall_forall, scorer_keys_extracted. }
  apply elem_of_dom in Hin as [v Hv]. congruence.
Qed.

Lemma null_pe_scored :
  evaluate_stock null_pe_metrics =
  Raise (TypeError "'<' not supported between instances of 'int' and 'NoneType'").
Proof.
  unfold evaluate_stock, check_pe, when_elif, between, getitem.
  rewrite (extracted_plain null_pe_profile "P/E Ratio" "trailingPE" _
             trailing_pe_plain null_pe_extracted).
  reflexivity.
Qed.

Lemma extracted_never_key_error_witness :
  ∃ msg,
    TypeError "'<' not supported between instances of 'int' and 'NoneType'"
    = TypeError msg.
Proof.
  exact (extracted_never_key_error null_pe_profile null_pe_metrics _
           null_pe_extracted null_pe_scored).
Defined.



(** ** Series operations *)

Lemma length_diff_from prev s : length (diff_from prev s) = length s.
Proof. revert prev. induction s; intros; simpl; auto. Qed.

Lemma length_diff s : length (diff s) = length s.
Proof. destruct s; simpl; [done|]. by rewrite length_diff_from. Qed.

Lemma length_where s c other :
  length c = length s → length (where_ s c other) = length s.
Proof. intros H. unfold where_. rewrite length_zip_with. lia. Qed.

Lemma length_rolling_mean w s : length (rolling_mean w s) = length s.
Proof. unfold rolling_mean. apply length_imap. Qed.

Lemma length_ewm_from alpha weighted old_wt s :
  length (ewm_from alpha weighted old_wt s) = length s.
Proof.
  revert weighted old_wt. induction s as [|x s IH]; intros; simpl; [done|].
  destruct (is_nan weighted); simpl; [by rewrite IH|].
  destruct (is_nan x); simpl; by rewrite IH.
Qed.

Lemma length_ewm_mean span s : length (ewm_mean span s) = length s.
Proof. destruct s; simpl; [done|]. by rewrite length_ewm_from. Qed.

Lemma length_bfill s : length (bfill s) = length s.
Proof. induction s; simpl; auto. Qed.

Lemma rolling_mean_short w s :
  (length s < w)%nat → rolling_mean w s = replicate (length s) nan.
Proof.
  intros Hlen. apply list_eq. intros i. unfold rolling_mean.
  rewrite list_lookup_imap.
  destruct (s !! i) as [x|] eqn:Hi; simpl.
  - apply lookup_lt_Some in Hi.
    rewrite lookup_replicate_2 by done.
    destruct (Nat.ltb_spec (i + 1) w); [done|lia].
  - apply lookup_ge_None in Hi. symmetry. apply lookup_ge_None.
    by rewrite length_replicate.
Qed.

Lemma bfill_replicate_nan n : bfill (replicate n nan) = replicate n nan.
Proof.
  induction n as [|n IH]; simpl; [done|]. rewrite IH.
  by destruct n.
Qed.

Lemma zip_with_replicate {A B C} (f : A → B → C) n a b :
  zip_with f (replicate n a) (replicate n b) = replicate n (f a b).
Proof. induction n; simpl; congruence. Qed.

Lemma bfill_valid s i x :
  s !! i = Some x → is_nan x = false → bfill s !! i = Some x.
Proof.
  revert i. induction s as [|y s IH]; intros i Hi Hx; [done|].
  destruct i as [|i]; simpl in *.
  - injection Hi as ->. by rewrite Hx.
  - by apply IH.
Qed.

Lemma bfill_no_nan s x :
  last s = Some x → is_nan x = false →
  Forall (fun y => is_nan y = false) (bfill s).
Proof.
  intros Hlast Hx. induction s as [|y s IH]; [done|].
  destruct s as [|z s].
  - simpl in *. injection Hlast as ->. rewrite Hx. by repeat constructor.
  - specialize (IH Hlast).
    change (bfill (y :: z :: s))
      with ((if is_nan y then hd y (bfill (z :: s)) else y) :: bfill (z :: s)).
    constructor; [|done].
    destruct (is_nan y) eqn:Hy; [|done].
    destruct (bfill (z :: s)) as [|h r] eqn:Hb; [done|].
    simpl. by apply Forall_cons in IH as [? _].
Qed.

(** ** The frame after the indicators *)

Lemma indicators_result hist close :
  columns hist !! "Close" = Some close →
  let delta := diff close in
  let gain :=
    rolling_mean 14 (where_ delta (map (fun d => 0 <? d)%float delta) 0) in
  let loss :=
    rolling_mean 14
      (map opp (where_ delta (map (fun d => d <? 0)%float delta) 0)) in
  let macd := zip_with sub (ewm_mean 12 close) (ewm_mean 26 close) in
  calculate_technical_indicators hist =
  Ok {| index := index hist;
        columns :=
          bfill <$>
            (<["Signal" := ewm_mean 9 macd]>
               (<["MACD" := macd]>
                  (<["RSI" := zip_with rsi_value gain loss]>
                     (<["MA200" := rolling_mean 200 close]>
                        (<["MA50" := rolling_mean 50 close]>
                           (columns hist)))))) |}.
Proof.
  intros Hclose. unfold calculate_technical_indicators, column, set_column.
  cbn [columns index].
  repeat (first [ rewrite lookup_insert_eq
                | rewrite lookup_insert_ne by discriminate
                | rewrite Hclose ];
          cbn [mbind result_bind]).
  reflexivity.
Qed.

(** X12: the indicator step needs the "Close" column and nothing else: without
    it the call raises [KeyError] for "Close"; with it the call returns a
    frame with the same index whose columns are those of the input plus
    MA50, MA200, RSI, MACD and Signal. *)
Theorem indicators_need_close hist :
  match columns hist !! "Close" with
  | None => calculate_technical_indicators hist = Raise (KeyError "Close")
  | Some _ =>
      ∃ hist', calculate_technical_indicators hist = Ok hist'
               ∧ index hist' = index hist
               ∧ dom (columns hist') =
                 dom (columns hist) ∪ list_to_set derived_columns
  end.
Proof.
  destruct (columns hist !! "Close") as [close|] eqn:Hclose.
  - rewrite (indicators_result hist close Hclose).
    eexists. split; [reflexivity|]. split; [reflexivity|].
    cbn [columns]. rewrite dom_fmap_L, !dom_insert_L. simpl. set_solver.
  - unfold calculate_technical_indicators, column. by rewrite Hclose.
Qed.

Lemma length_rsi close :
  let delta := diff close in
  length (zip_with rsi_value
            (rolling_mean 14
               (where_ delta (map (fun d => 0 <? d)%float delta) 0))
            (rolling_mean 14
               (map opp (where_ delta (map (fun d => d <? 0)%float delta) 0))))
  = length close.
Proof.
  intros delta.
  rewrite length_zip_with, !length_rolling_mean, length_map.
  rewrite !length_where by apply length_map.
  unfold delta. rewrite length_diff. lia.
Qed.

(** X13: the indicator step keeps the frame rectangular: when every column
    of the input has [n] entries, so has every column of the result, the
    five derived ones included. *)
Theorem indicators_rectangular hist hist' n :
  map_Forall (fun _ s => length s = n) (columns hist) →
  calculate_technical_indicators hist = Ok hist' →
  map_Forall (fun _ s => length s = n) (columns hist').
Proof.
  intros Hrect He.
  destruct (columns hist !! "Close") as [close|] eqn:Hclose;
    [|unfold calculate_technical_indicators, column in He;
      by rewrite Hclose in He].
  rewrite (indicators_result hist close Hclose) in He.
  injection He as <-. cbn [columns].
  pose proof (Hrect _ _ Hclose) as Hn. simpl in Hn.
  apply map_Forall_fmap.
  repeat apply map_Forall_insert_2.
  - simpl. rewrite length_bfill, length_ewm_mean, length_zip_with,
      !length_ewm_mean. lia.
  - simpl. rewrite length_bfill, length_zip_with, !length_ewm_mean. lia.
  - simpl. by rewrite length_bfill, length_rsi.
  - simpl. by rewrite length_bfill, length_rolling_mean.
  - simpl. by rewrite length_bfill, length_rolling_mean.
  - intros k s Hk. simpl. rewrite length_bfill. by apply (Hrect k).
Qed.

Lemma flat_history_rectangular :
  map_Forall (fun _ s => length s = 252%nat) (columns flat_history).
Proof. apply map_Forall_singleton. reflexivity. Qed.

Lemma flat_indicators_ok :
  calculate_technical_indicators flat_history = Ok flat_indicators.
Proof.
  unfold flat_indicators.
  by rewrite (indicators_result flat_history (replicate 252 10%float) eq_refl).
Qed.

Lemma indicators_rectangular_witness :
  map_Forall (fun _ s => length s = 252%nat) (columns flat_indicators).
Proof.
  exact (indicators_rectangular flat_history flat_indicators 252
           flat_history_rectangular flat_indicators_ok).
Defined.

(** X14: the back-fill also rewrites the input columns: in the result each
    of them is the back-filled input column, in which every valid entry is
    kept in place and, if the column ends with a valid entry, no NaN is
    left. *)
Theorem input_columns_backfilled hist hist' k s :
  calculate_technical_indicators hist = Ok hist' →
  columns hist !! k = Some s →
  k ∉ derived_columns →
  columns hist' !! k = Some (bfill s)
  ∧ (∀ i x, s !! i = Some x → is_nan x = false → bfill s !! i = Some x)
  ∧ (∀ x, last s = Some x → is_nan x = false →
          Forall (fun y => is_nan y = false) (bfill s)).
Proof.
  intros He Hk Hnew.
  destruct (columns hist !! "Close") as [close|] eqn:Hclose;
    [|unfold calculate_technical_indicators, column in He;
      by rewrite Hclose in He].
  rewrite (indicators_result hist close Hclose) in He.
  injection He as <-. cbn [columns].
  split; [|split; [apply bfill_valid|apply bfill_no_nan]].
  rewrite lookup_fmap.
  unfold derived_columns in Hnew.
  rewrite !lookup_insert_ne by (intros <-; apply Hnew; set_solver).
  by rewrite Hk.
Qed.

Lemma close_not_derived : "Close" ∉ derived_columns.
Proof. by apply (bool_decide_unpack _); vm_compute. Defined.

Lemma input_columns_backfilled_witness :
  columns flat_indicators !! "Close" = Some (bfill (replicate 252 10%float)).
Proof.
  exact (proj1 (input_columns_backfilled flat_history flat_indicators "Close"
                  (replicate 252 10%float)
                  flat_indicators_ok eq_refl close_not_derived)).
Defined.

(** X15: a history too short for a window has no defined value in that
    window's column, and the back-fill has nothing to copy: with fewer than
    50 (200) closes the MA50 (MA200) column is NaN throughout, and with
    fewer than 14 closes so is the RSI column. *)
Theorem short_history_undefined hist hist' close :
  columns hist !! "Close" = Some close →
  calculate_technical_indicators hist = Ok hist' →
  ((length close < 50)%nat →
   columns hist' !! "MA50" = Some (replicate (length close) nan))
  ∧ ((length close < 200)%nat →
     columns hist' !! "MA200" = Some (replicate (length close) nan))
  ∧ ((length close < 14)%nat →
     columns hist' !! "RSI" = Some (replicate (length close) nan)).
Proof.
  intros Hclose He.
  rewrite (indicators_result hist close Hclose) in He.
  injection He as <-. cbn [columns]. rewrite !lookup_fmap.
  split; [|split]; intros Hlen.
  - rewrite !lookup_insert_ne by discriminate. rewrite lookup_insert_eq.
    simpl. by rewrite rolling_mean_short, bfill_replicate_nan.
  - rewrite !lookup_insert_ne by discriminate. rewrite lookup_insert_eq.
    simpl. by rewrite rolling_mean_short, bfill_replicate_nan.
  - rewrite !lookup_insert_ne by discriminate. rewrite lookup_insert_eq.
    simpl.
    assert (length (where_ (diff close)
                      (map (fun d => 0 <? d)%float (diff close)) 0)
            = length close) as Hg
      by (rewrite length_where by apply length_map; apply length_diff).
    assert (length (map opp (where_ (diff close)
                      (map (fun d => d <? 0)%float (diff close)) 0))
            = length close) as Hl
      by (rewrite length_map, length_where by apply length_map;
          apply length_diff).
    rewrite !rolling_mean_short by lia. rewrite Hg, Hl.
    by rewrite zip_with_replicate, bfill_replicate_nan.
Qed.

Lemma short_history_undefined_witness :
  ((16 < 50)%nat →
   columns (short_indicators) !! "MA50" = Some (replicate 16 nan))
  ∧ ((16 < 200)%nat →
     columns (short_indicators) !! "MA200" = Some (replicate 16 nan))
  ∧ ((16 < 14)%nat →
     columns (short_indicators) !! "RSI" = Some (replicate 16 nan)).
Proof.
  assert (calculate_technical_indicators short_history = Ok short_indicators)
    as He.
  { unfold short_indicators.
    by rewrite (indicators_result short_history _ eq_refl). }
  exact (short_history_undefined short_history short_indicators
           (float_of_nat <$> seq 1 16) eq_refl He).
Defined.

(** ** Extremes of the relative-strength formula *)

Lemma rsi_no_gain loss : (0 <? loss)%float = true → rsi_value 0 loss = 0%float.
Proof.
  intros Hpos. apply Prim2SF_inj. unfold rsi_value.
  rewrite ltb_spec in Hpos.
  rewrite sub_spec, div_spec, add_spec, div_spec.
  change (Prim2SF 0) with (S754_zero false) in *.
  destruct (Prim2SF loss) as [s|[]| |[] m e]; try discriminate;
    vm_compute; reflexivity.
Qed.

(** X16: the relative-strength formula saturates exactly: it gives 100 for
    any positive average gain with a zero average loss, and 0 for a zero
    average gain with any positive average loss. *)
Theorem rsi_saturates gain loss :
  (0 <? gain)%float = true → (0 <? loss)%float = true →
  rsi_value gain 0 = 100%float ∧ rsi_value 0 loss = 0%float.
Proof. intros Hg Hl. split; [by apply rsi_no_loss|by apply rsi_no_gain]. Qed.

Lemma rsi_saturates_witness :
  rsi_value 0.5 0 = 100%float ∧ rsi_value 0 0.25 = 0%float.
Proof. exact (rsi_saturates 0.5 0.25 eq_refl eq_refl). Defined.

(** ** The chart *)

Lemma column_present hist k :
  is_Some (columns hist !! k) → ∃ s, column hist k = Ok s.
Proof. intros [s Hs]. exists s. unfold column. by rewrite Hs. Qed.

Lemma column_absent hist k :
  columns hist !! k = None → column hist k = Raise (KeyError k).
Proof. intros Hk. unfold column. by rewrite Hk. Qed.

Lemma plot_ok hist :
  Forall (fun k => is_Some (columns hist !! k)) plot_columns →
  ∃ fig, plot_technical_analysis hist = Ok fig
         ∧ (fun p => (trace_name p.1.1, p.1.2, p.2)) <$> fig_traces fig =
           [ ("Price", 1, 1); ("50-day MA", 1, 1); ("200-day MA", 1, 1);
             ("RSI", 2, 1); ("MACD", 3, 1); ("Signal", 3, 1) ]%nat
         ∧ fig_hlines fig =
           [ HLine 70 "dash" "red" 2 1; HLine 30 "dash" "green" 2 1 ].
Proof.
  unfold plot_columns. intros H.
  repeat match goal with
         | H : Forall _ (_ :: _) |- _ =>
             let s := fresh "s" in
             let Hs := fresh "Hs" in
             let Hrest := fresh "Hrest" in
             apply Forall_cons in H as [[s Hs]%column_present Hrest]
         end.
  unfold plot_technical_analysis.
  repeat match goal with
         | Hs : column hist _ = Ok _ |- _ =>
             rewrite Hs; clear Hs; cbn [mbind result_bind]
         end.
  eexists. split; [reflexivity|]. split; reflexivity.
Qed.

Lemma plot_raise hist e :
  plot_technical_analysis hist = Raise e →
  ∃ pre k post, plot_columns = (pre ++ k :: post)%list
                ∧ Forall (fun k => is_Some (columns hist !! k)) pre
                ∧ columns hist !! k = None
                ∧ e = KeyError k.
Proof.
  unfold plot_technical_analysis, plot_columns.
  assert (∀ k, (∃ s, columns hist !! k = Some s ∧ column hist k = Ok s)
               ∨ (columns hist !! k = None
                  ∧ column hist k = Raise (KeyError k))) as Hcol.
  { intros k. unfold column. destruct (columns hist !! k); eauto. }
  destruct (Hcol "Open") as [(? & ? & ->)|[? ->]]; cbn [mbind result_bind];
    [|intros [= <-]; by eexists [], "Open", _].
  destruct (Hcol "High") as [(? & ? & ->)|[? ->]]; cbn [mbind result_bind];
    [|intros [= <-]; eexists ["Open"], "High", _; by repeat constructor].
  destruct (Hcol "Low") as [(? & ? & ->)|[? ->]]; cbn [mbind result_bind];
    [|intros [= <-]; eexists ["Open"; "High"], "Low", _;
      by repeat constructor].
  destruct (Hcol "Close") as [(? & ? & ->)|[? ->]]; cbn [mbind result_bind];
    [|intros [= <-]; eexists ["Open"; "High"; "Low"], "Close", _;
      by repeat constructor].
  destruct (Hcol "MA50") as [(? & ? & ->)|[? ->]]; cbn [mbind result_bind];
    [|intros [= <-]; eexists ["Open"; "High"; "Low"; "Close"], "MA50", _;
      by repeat constructor].
  destruct (Hcol "MA200") as [(? & ? & ->)|[? ->]]; cbn [mbind result_bind];
    [|intros [= <-];
      eexists ["Open"; "High"; "Low"; "Close"; "MA50"], "MA200", _;
      by repeat constructor].
  destruct (Hcol "RSI") as [(? & ? & ->)|[? ->]]; cbn [mbind result_bind];
    [|intros [= <-];
      eexists ["Open"; "High"; "Low"; "Close"; "MA50"; "MA200"], "RSI", _;
      by repeat constructor].
  destruct (Hcol "MACD") as [(? & ? & ->)|[? ->]]; cbn [mbind result_bind];
    [|intros [= <-];
      eexists ["Open"; "High"; "Low"; "Close"; "MA50"; "MA200"; "RSI"],
        "MACD", _;
      by repeat constructor].
  destruct (Hcol "Signal") as [(? & ? & ->)|[? ->]]; cbn [mbind result_bind];
    [done|].
  intros [= <-].
  exists ["Open"; "High"; "Low"; "Close"; "MA50"; "MA200"; "RSI"; "MACD"],
    "Signal", [].
  by repeat constructor.
Qed.

(** X17: the chart builder reads nine columns in a fixed order.  With all
    of them present it returns a figure with six traces (price, the two
    moving averages in row 1, RSI in row 2, MACD and signal in row 3) and
    the two RSI levels 70 and 30; otherwise it raises [KeyError] for the
    first column, in reading order, that the frame lacks. *)
Theorem plot_outcome hist :
  (Forall (fun k => is_Some (columns hist !! k)) plot_columns
   ∧ ∃ fig, plot_technical_analysis hist = Ok fig
            ∧ (fun p => (trace_name p.1.1, p.1.2, p.2)) <$> fig_traces fig =
              [ ("Price", 1, 1); ("50-day MA", 1, 1); ("200-day MA", 1, 1);
                ("RSI", 2, 1); ("MACD", 3, 1); ("Signal", 3, 1) ]%nat
            ∧ fig_hlines fig =
              [ HLine 70 "dash" "red" 2 1; HLine 30 "dash" "green" 2 1 ])
  ∨ (∃ pre k post, plot_columns = (pre ++ k :: post)%list
                   ∧ Forall (fun k => is_Some (columns hist !! k)) pre
                   ∧ columns hist !! k = None
                   ∧ plot_technical_analysis hist = Raise (KeyError k)).
Proof.
  destruct (plot_technical_analysis hist) as [fig|e] eqn:Hplot.
  - left.
    assert (Forall (fun k => is_Some (columns hist !! k)) plot_columns) as Hall.
    { apply Forall_forall. intros k Hk.
      destruct (columns hist !! k) as [s|] eqn:Hs; [eauto|]. exfalso.
      revert Hplot. unfold plot_technical_analysis, plot_columns in *.
      repeat (apply elem_of_cons in Hk as [->|Hk];
              [ repeat match goal with
                       | |- context [column hist ?k'] =>
                           first [ rewrite (column_absent hist k' Hs); done
                                 | destruct (column hist k');
                                   cbn [mbind result_bind]; [|done] ]
                       end
              | ]).
      by apply elem_of_nil in Hk. }
    split; [done|].
    destruct (plot_ok hist Hall) as (fig' & Hfig & Htr & Hhl).
    rewrite Hplot in Hfig. injection Hfig as <-. eauto.
  - right. apply plot_raise in Hplot as (pre & k & post & ? & ? & ? & ->).
    by exists pre, k, post.
Qed.

Lemma indicators_add_columns hist hist' k :
  calculate_technical_indicators hist = Ok hist' →
  k ∈ derived_columns ∨ is_Some (columns hist !! k) →
  is_Some (columns hist' !! k).
Proof.
  intros He Hk.
  destruct (columns hist !! "Close") as [close|] eqn:Hclose;
    [|unfold calculate_technical_indicators, column in He;
      by rewrite Hclose in He].
  rewrite (indicators_result hist close Hclose) in He.
  injection He as <-. cbn [columns]. apply elem_of_dom.
  rewrite dom_fmap_L, !dom_insert_L.
  destruct Hk as [Hk|Hk%elem_of_dom]; [|set_solver].
  unfold derived_columns in Hk. set_solver.
Qed.

(** X18: after the indicator step the chart can always be drawn: for a frame
    with the Open, High, Low and Close columns, [calculate_technical_indicators]
    returns and [plot_technical_analysis] returns on its result. *)
Theorem indicators_then_plot hist :
  Forall (fun k => is_Some (columns hist !! k))
         ["Open"; "High"; "Low"; "Close"] →
  ∃ hist' fig, calculate_technical_indicators hist = Ok hist'
               ∧ plot_technical_analysis hist' = Ok fig.
Proof.
  intros Hcols.
  assert (is_Some (columns hist !! "Close")) as [close Hclose].
  { apply Forall_forall with (x := "Close") in Hcols; [done|set_solver]. }
  pose proof (indicators_result hist close Hclose) as He. cbv zeta in He.
  match type of He with _ = Ok ?h => set (hist' := h) in He end.
  assert (Forall (fun k => is_Some (columns hist' !! k)) plot_columns) as Hall.
  { apply Forall_forall. intros k Hk.
    apply (indicators_add_columns hist hist' k He).
    unfold plot_columns in Hk.
    destruct (decide (k ∈ derived_columns)) as [|Hnd]; [by left|right].
    apply Forall_forall with (x := k) in Hcols; [done|].
    unfold derived_columns in Hnd. set_solver. }
  destruct (plot_ok hist' Hall) as (fig & Hfig & _).
  by exists hist', fig.
Qed.

Lemma two_days_ohlc :
  Forall (fun k => is_Some (columns two_days !! k))
         ["Open"; "High"; "Low"; "Close"].
Proof. repeat (constructor; [by eexists|]). constructor. Defined.

Lemma indicators_then_plot_witness :
  ∃ hist' fig, calculate_technical_indicators two_days = Ok hist'
               ∧ plot_technical_analysis hist' = Ok fig.
Proof. exact (indicators_then_plot two_days two_days_ohlc). Defined.

(** ** Acquisition and the page *)

Section Page.
Context {Sheet Figure : Type}.
Variable yf_Ticker : string → result (ticker_obj Sheet).
Variable py_str : pyval → string.
Variable format_2f : pyval → result string.
Variable plot_technical_analysis : frame → result Figure.

Lemma get_stock_data_page ticker (page : list (widget Figure)) :
  (∃ r, get_stock_data yf_Ticker ticker page = (Ok r, page))
  ∨ (∃ e,
       get_stock_data yf_Ticker ticker page
       = (Raise e,
          (page ++ [StError ("Error fetching data for " +:+ ticker +:+ ": "
                             +:+ str_exn e)])%list)).
Proof.
  unfold get_stock_data, try_except, st_put, raise, lift.
  unfold mbind, action_bind.
  repeat match goal with
         | |- context [match ?r with Ok _ => _ | Raise _ => _ end] =>
             destruct r
         | |- context [if ?b then _ else _] => destruct b
         end;
    eauto.
Qed.

(** X19: [get_stock_data] either returns, and then every step succeeded, the
    history was not empty, the history returned is the one with the
    indicators, and nothing was written to the page; or it raises, and then
    exactly one error line naming the ticker and the exception was written
    before the same exception was raised again. *)
Theorem get_stock_data_outcome ticker (page : list (widget Figure)) :
  (∃ stock info hist hist' bs inc cf,
     yf_Ticker ticker = Ok stock
     ∧ t_info stock = Ok info
     ∧ t_history stock "1y" = Ok hist
     ∧ empty hist = false
     ∧ calculate_technical_indicators hist = Ok hist'
     ∧ t_balance_sheet stock = Ok bs
     ∧ t_income_stmt stock = Ok inc
     ∧ t_cash_flow stock = Ok cf
     ∧ get_stock_data yf_Ticker ticker page
       = (Ok (info, hist', bs, inc, cf), page))
  ∨ (∃ e,
       get_stock_data yf_Ticker ticker page
       = (Raise e,
          (page ++ [StError ("Error fetching data for " +:+ ticker +:+ ": "
                             +:+ str_exn e)])%list)).
Proof.
  unfold get_stock_data, try_except, st_put, raise, lift.
  unfold mbind, action_bind.
  destruct (yf_Ticker ticker) as [stock|]; [|right; eauto].
  destruct (t_info stock) as [info|] eqn:Hinfo; [|right; eauto].
  destruct (t_history stock "1y") as [hist|] eqn:Hhist; [|right; eauto].
  destruct (empty hist) eqn:Hempty; [right; eauto|].
  destruct (calculate_technical_indicators hist) as [hist'|] eqn:Hind;
    [|right; eauto].
  destruct (t_balance_sheet stock) as [bs|] eqn:Hbs; [|right; eauto].
  destruct (t_income_stmt stock) as [inc|] eqn:Hinc; [|right; eauto].
  destruct (t_cash_flow stock) as [cf|] eqn:Hcf; [|right; eauto].
  left. exists stock, info, hist, hist', bs, inc, cf. by repeat split.
Qed.

(** X20: [analyze] never lets an exception escape and never removes what is
    on the page: it returns normally, having appended either the five
    widgets of a full report, or whatever it had shown before the failure
    followed by the two error lines. *)
Theorem analyze_never_raises ticker (page : list (widget Figure)) :
  ∃ shown,
    analyze yf_Ticker py_str format_2f plot_technical_analysis ticker page
    = (Ok tt, (page ++ shown)%list)
    ∧ ((∃ name summary price cap fig,
          shown = [ StHeader name; StWrite summary;
                    StMetric "Current Price" price;
                    StMetric "Market Cap" cap; StPlotlyChart fig ])
       ∨ (∃ before e,
            shown =
            (before ++
             [ StError ("Error analyzing " +:+ ticker
                        +:+ ". Please try again.");
               StError ("Error details: " +:+ str_exn e) ])%list)).
Proof.
  unfold analyze, try_except.
  unfold mbind at 1, action_bind at 1.
  destruct (get_stock_data_page ticker page)
    as [[[[[[info hist'] bs] inc] cf] ->]|[e ->]];
    unfold lift, st_put, mbind, action_bind; cbn;
    repeat match goal with
           | |- context [match ?r with Ok _ => _ | Raise _ => _ end] =>
               destruct r; cbn
           end.
  all: eexists; split; [rewrite <- ?app_assoc; reflexivity|].
  all: first [ left; by eexists _, _, _, _, _
             | right;
               first [ by eexists [], _ | by eexists [_], _
                     | by eexists [_; _], _ | by eexists [_; _; _], _
                     | by eexists [_; _; _; _], _ ] ].
Qed.
End Page.
